(** * The knowledge-library API client

    A shallow embedding of [rag-frontend/src/api/knowledge.js]: the class
    [KnowledgeLibraryAPI], its fourteen asynchronous methods and the
    singleton [knowledgeAPI].  The shared transport [httpClient] (imported
    from [./config.js]) and the platform primitive [fetch] are external: they
    are the two oracles of a [World], and a method is a tree of the calls it
    makes to them. *)

From Stdlib Require Import String Ascii List ZArith Lia Bool DecimalString.
Import ListNotations.
Open Scope string_scope.
Open Scope list_scope.
Open Scope Z_scope.

(* ================================================================= *)
(** ** JavaScript values *)

(** A [File] of the platform, as far as the client looks at it. *)
Module File.
Record t : Type := mk {
  name : string;
  type : string;
  bytes : list Byte.byte
}.
End File.

(** The value of a [FormData] entry: [append] keeps a [File] and turns
    everything else into a string. *)
Inductive FormDataEntryValue : Type :=
| FString (s : string)
| FFile (f : File.t).

Definition FormData : Type := list (string * FormDataEntryValue).

(** [Number.MAX_SAFE_INTEGER], 2^53 - 1. *)
Definition MAX_SAFE_INTEGER : Z := 9007199254740991.

(** Number::toString on an integer whose magnitude is at most
    [MAX_SAFE_INTEGER] (a safe integer; an HTTP status is one): all its
    decimal digits, a leading minus sign for a negative one. *)
Definition Number_toString (n : Z) : string :=
  NilZero.string_of_int (Z.to_int n).

(** A number.  The client never computes with one: it hands it on or turns
    it into a string.  A safe integer is given by its value, which it
    carries with the proof that it is safe.  Every other number (a
    fraction, an integer beyond the safe range such as 2^60 or 10^21, NaN,
    an infinity) is given by the string that Number::toString prints for
    it, ["0.5"], ["1152921504606847000"], ["1e+21"], ["NaN"]: that string
    identifies the number, and it is all the client can observe of it. *)
Module Number.
Inductive t : Type :=
| Int (n : Z) (safe : (Z.abs n <=? MAX_SAFE_INTEGER) = true)
| Other (repr : string).

Definition toString (x : t) : string :=
  match x with
  | Int n _ => Number_toString n
  | Other repr => repr
  end.
End Number.

(** The safe integer [z], for a numeral. *)
Abbreviation int z := (Number.Int z eq_refl) (only parsing).

(** The values a caller can hand to a method.  Strings are sequences of
    bytes (UTF-8); an object is the ordered list of its own properties. *)
#[warnings="-register-all"]
Inductive JsVal : Type :=
| VUndefined
| VNull
| VBool (b : bool)
| VNum (n : Number.t)
| VStr (s : string)
| VSymbol (description : string)
| VObject (props : list (string * JsVal))
| VFile (f : File.t)
| VFormData (entries : FormData)
| VError (name message : string).

(** [new Error(message)] and the engine's [TypeError] (the messages of the
    latter are V8's). *)
Definition Error (message : string) : JsVal := VError "Error" message.
Definition TypeError (message : string) : JsVal := VError "TypeError" message.

(** [key] is an own property. *)
Definition has_own (key : string) (props : list (string * JsVal)) : bool :=
  existsb (fun kv => String.eqb (fst kv) key) props.

(** [Error.prototype.toString]. *)
Definition Error_toString (name message : string) : string :=
  if String.eqb name "" then message
  else if String.eqb message "" then name
  else (name ++ ": " ++ message)%string.

(** The abstract operation ToString, used by template literals and by
    [FormData.append]; [None] stands for the [TypeError] it throws.  It
    throws on a Symbol, and on an object whose own property [toString]
    hides the inherited method: no value of the model is a function, so
    such an object has no way to a primitive. *)
Definition ToString (v : JsVal) : option string :=
  match v with
  | VUndefined => Some "undefined"
  | VNull => Some "null"
  | VBool true => Some "true"
  | VBool false => Some "false"
  | VNum n => Some (Number.toString n)
  | VStr s => Some s
  | VSymbol _ => None
  | VObject props =>
      if has_own "toString" props then None else Some "[object Object]"
  | VFile _ => Some "[object File]"
  | VFormData _ => Some "[object FormData]"
  | VError name message => Some (Error_toString name message)
  end.

(** The [TypeError] of a failed ToString. *)
Definition ToString_error (v : JsVal) : JsVal :=
  VError "TypeError"
    match v with
    | VSymbol _ => "Cannot convert a Symbol value to a string"
    | _ => "Cannot convert object to primitive value"
    end.

(** A parameter with a default value takes it when the argument is missing
    or [undefined]. *)
Definition default_param (v dflt : JsVal) : JsVal :=
  match v with
  | VUndefined => dflt
  | _ => v
  end.

(** [String.prototype.split] with a separator of one character.  The
    separator used by the client is ['?'], a byte that never occurs inside a
    multi-byte UTF-8 sequence, so splitting bytes splits the text. *)
Fixpoint split (sep : ascii) (s : string) : list string :=
  match s with
  | EmptyString => [EmptyString]
  | String c rest =>
      if Ascii.eqb c sep then EmptyString :: split sep rest
      else match split sep rest with
           | [] => [String c EmptyString]
           | hd :: tl => String c hd :: tl
           end
  end.

(** [parts[i]] on an array of strings: [undefined] past the end. *)
Definition index (parts : list string) (i : nat) : JsVal :=
  match nth_error parts i with
  | Some s => VStr s
  | None => VUndefined
  end.

Fixpoint lookup (key : string) (props : list (string * JsVal)) : JsVal :=
  match props with
  | [] => VUndefined
  | (k, v) :: rest => if String.eqb k key then v else lookup key rest
  end.

(* ================================================================= *)
(** ** Requests, responses and the outside world *)

Inductive Verb : Type := GET | POST | PUT | DELETE.

(** A call [httpClient.verb(path)] or [httpClient.verb(path, arg)]: the
    second argument is the query of a [get] and the body of a [post] or
    [put]. *)
Record HttpRequest : Type := mkHttp {
  verb : Verb;
  path : string;
  arg : option JsVal
}.

(** A call [fetch(url, {method, body, headers})]. *)
Record FetchRequest : Type := mkFetch {
  url : JsVal;
  method : string;
  body : JsVal;
  headers : list (string * JsVal)
}.

(** The platform's [Response], as far as the client reads it. *)
Record Response : Type := mkResponse {
  status : Z;
  statusText : string
}.

(** The getter [Response.ok]: the status is in the range 200 to 299. *)
Definition ok (r : Response) : bool :=
  (200 <=? status r) && (status r <=? 299).

(** How a promise settles. *)
Inductive Settled (A : Type) : Type :=
| Fulfilled (a : A)
| Rejected (e : JsVal).
Arguments Fulfilled {A} a.
Arguments Rejected {A} e.

(** What an observer of a call sees, in order: the requests with their
    answers and the lines written with [console.error]. *)
Inductive Event : Type :=
| EvHttp (req : HttpRequest) (res : Settled JsVal)
| EvFetch (req : FetchRequest) (res : Settled Response)
| EvConsoleError (args : list JsVal).

(** The transport and the network: each answers a request, and the answer
    may depend on everything that happened before. *)
Record World : Type := mkWorld {
  httpClient : list Event -> HttpRequest -> Settled JsVal;
  fetch : list Event -> FetchRequest -> Settled Response
}.

(** The own properties of the client instance. *)
Definition Instance : Type := list (string * JsVal).

Fixpoint set_field (field : string) (v : JsVal) (this : Instance) : Instance :=
  match this with
  | [] => [(field, v)]
  | (k, old) :: rest =>
      if String.eqb k field then (k, v) :: rest
      else (k, old) :: set_field field v rest
  end.

(* ================================================================= *)
(** ** Asynchronous computations *)

(** The body of an [async] method: it returns, throws, awaits the transport
    or the network, writes to the console, or assigns or reads a field of
    [this]. *)
Inductive Async (A : Type) : Type :=
| Return (a : A)
| Throw (e : JsVal)
| AwaitHttp (req : HttpRequest) (k : Settled JsVal -> Async A)
| AwaitFetch (req : FetchRequest) (k : Settled Response -> Async A)
| ConsoleError (args : list JsVal) (k : Async A)
| SetThis (field : string) (v : JsVal) (k : Async A)
| GetThis (field : string) (k : JsVal -> Async A).
Arguments Return {A} a.
Arguments Throw {A} e.
Arguments AwaitHttp {A} req k.
Arguments AwaitFetch {A} req k.
Arguments ConsoleError {A} args k.
Arguments SetThis {A} field v k.
Arguments GetThis {A} field k.

Fixpoint bind {A B : Type} (m : Async A) (f : A -> Async B) : Async B :=
  match m with
  | Return a => f a
  | Throw e => Throw e
  | AwaitHttp req k => AwaitHttp req (fun r => bind (k r) f)
  | AwaitFetch req k => AwaitFetch req (fun r => bind (k r) f)
  | ConsoleError args k => ConsoleError args (bind k f)
  | SetThis field v k => SetThis field v (bind k f)
  | GetThis field k => GetThis field (fun v => bind (k v) f)
  end.

(** [try { m } catch (error) { handler error }]. *)
Fixpoint try_catch {A : Type} (m : Async A) (handler : JsVal -> Async A) : Async A :=
  match m with
  | Return a => Return a
  | Throw e => handler e
  | AwaitHttp req k => AwaitHttp req (fun r => try_catch (k r) handler)
  | AwaitFetch req k => AwaitFetch req (fun r => try_catch (k r) handler)
  | ConsoleError args k => ConsoleError args (try_catch k handler)
  | SetThis field v k => SetThis field v (try_catch k handler)
  | GetThis field k => GetThis field (fun v => try_catch (k v) handler)
  end.

Declare Scope async_scope.
Delimit Scope async_scope with async.
Notation "x <- m ;; k" := (bind m (fun x => k))
  (at level 100, m at next level, right associativity) : async_scope.
Notation "m ;; k" := (bind m (fun _ => k))
  (at level 100, right associativity) : async_scope.
Open Scope async_scope.

(** [await p]: the value of a fulfilled promise, a throw of the reason of a
    rejected one. *)
Definition await {A : Type} (r : Settled A) : Async A :=
  match r with
  | Fulfilled a => Return a
  | Rejected e => Throw e
  end.

Definition httpClient_get (p : string) (query : option JsVal) : Async JsVal :=
  AwaitHttp (mkHttp GET p query) await.
Definition httpClient_post (p : string) (data : JsVal) : Async JsVal :=
  AwaitHttp (mkHttp POST p (Some data)) await.
Definition httpClient_put (p : string) (data : JsVal) : Async JsVal :=
  AwaitHttp (mkHttp PUT p (Some data)) await.
Definition httpClient_delete (p : string) : Async JsVal :=
  AwaitHttp (mkHttp DELETE p None) await.

Definition await_fetch (req : FetchRequest) : Async Response :=
  AwaitFetch req await.

Definition console_error (args : list JsVal) : Async unit :=
  ConsoleError args (Return tt).

(** A template literal [`prefix${v}`]. *)
Definition template (prefix : string) (v : JsVal) : Async string :=
  match ToString v with
  | Some s => Return (prefix ++ s)%string
  | None => Throw (ToString_error v)
  end.

(** [formData.append(name, value)]. *)
Definition FormData_append (fd : FormData) (name : string) (value : JsVal)
  : Async FormData :=
  match value with
  | VFile f => Return (fd ++ [(name, FFile f)])
  | _ =>
      match ToString value with
      | Some s => Return (fd ++ [(name, FString s)])
      | None => Throw (ToString_error value)
      end
  end.

(** The property access [v.type]: a [File] has the property, an object may
    have it as its own, no other prototype defines it, and [undefined] and
    [null] have no properties to read. *)
Definition get_type (v : JsVal) : Async JsVal :=
  match v with
  | VUndefined =>
      Throw (TypeError "Cannot read properties of undefined (reading 'type')")
  | VNull =>
      Throw (TypeError "Cannot read properties of null (reading 'type')")
  | VObject props => Return (lookup "type" props)
  | VFile f => Return (VStr (File.type f))
  | _ => Return VUndefined
  end.

(** The method call [v.split(sep)]: only a string has the method (no value
    of the model is a function, so no object has one either). *)
Definition method_split (v : JsVal) (sep : ascii) : Async (list string) :=
  match v with
  | VStr s => Return (split sep s)
  | VUndefined =>
      Throw (TypeError "Cannot read properties of undefined (reading 'split')")
  | VNull =>
      Throw (TypeError "Cannot read properties of null (reading 'split')")
  | _ => Throw (TypeError "uploadUrl.split is not a function")
  end.

(** The outcome of running a method: what was observed, the instance
    afterwards, and how the returned promise settled. *)
Record Run (A : Type) : Type := mkRun {
  events : list Event;
  this_after : Instance;
  settled : Settled A
}.
Arguments mkRun {A} events this_after settled.
Arguments events {A} r.
Arguments this_after {A} r.
Arguments settled {A} r.

Definition observe {A : Type} (ev : Event) (r : Run A) : Run A :=
  mkRun (ev :: events r) (this_after r) (settled r).

Fixpoint run {A : Type} (w : World) (past : list Event) (this : Instance)
  (m : Async A) : Run A :=
  match m with
  | Return a => mkRun [] this (Fulfilled a)
  | Throw e => mkRun [] this (Rejected e)
  | AwaitHttp req k =>
      let res := httpClient w past req in
      observe (EvHttp req res) (run w (past ++ [EvHttp req res]) this (k res))
  | AwaitFetch req k =>
      let res := fetch w past req in
      observe (EvFetch req res) (run w (past ++ [EvFetch req res]) this (k res))
  | ConsoleError args k =>
      observe (EvConsoleError args) (run w (past ++ [EvConsoleError args]) this k)
  | SetThis field v k =>
      run w past (set_field field v this) k
  | GetThis field k =>
      run w past this (k (lookup field this))
  end.

(* ================================================================= *)
(** ** The methods of [KnowledgeLibraryAPI] *)

Definition getLibraries : Async JsVal :=
  try_catch
    (response <- httpClient_get "/api/knowledge/libraries" None ;;
     Return response)
    (fun error =>
       console_error [VStr "获取知识库列表失败:"; error] ;;
       Throw error).

Definition getLibraryDetail (libraryId : JsVal) : Async JsVal :=
  try_catch
    (p <- template "/api/knowledge/libraries/" libraryId ;;
     response <- httpClient_get p None ;;
     Return response)
    (fun error =>
       console_error [VStr "获取知识库详情失败:"; error] ;;
       Throw error).

Definition createLibrary (libraryData : JsVal) : Async JsVal :=
  try_catch
    (response <- httpClient_post "/api/knowledge/libraries" libraryData ;;
     Return response)
    (fun error =>
       console_error [VStr "创建知识库失败:"; error] ;;
       Throw error).

Definition updateLibrary (libraryId libraryData : JsVal) : Async JsVal :=
  try_catch
    (p <- template "/api/knowledge/libraries/" libraryId ;;
     response <- httpClient_put p libraryData ;;
     Return response)
    (fun error =>
       console_error [VStr "更新知识库失败:"; error] ;;
       Throw error).

Definition deleteLibrary (libraryId : JsVal) : Async JsVal :=
  try_catch
    (p <- template "/api/knowledge/libraries/" libraryId ;;
     response <- httpClient_delete p ;;
     Return response)
    (fun error =>
       console_error [VStr "删除知识库失败:"; error] ;;
       Throw error).

Definition addDocument (documentData : JsVal) : Async JsVal :=
  try_catch
    (response <- httpClient_post "/api/knowledge/documents" documentData ;;
     Return response)
    (fun error =>
       console_error [VStr "添加文档失败:"; error] ;;
       Throw error).

Definition updateDocument (documentId documentData : JsVal) : Async JsVal :=
  try_catch
    (p <- template "/api/knowledge/documents/" documentId ;;
     response <- httpClient_put p documentData ;;
     Return response)
    (fun error =>
       console_error [VStr "更新文档失败:"; error] ;;
       Throw error).

Definition deleteDocument (documentId : JsVal) : Async JsVal :=
  try_catch
    (p <- template "/api/knowledge/documents/" documentId ;;
     response <- httpClient_delete p ;;
     Return response)
    (fun error =>
       console_error [VStr "删除文档失败:"; error] ;;
       Throw error).

Definition getUploadUrl (documentName : JsVal) : Async JsVal :=
  try_catch
    (response <- httpClient_post "/api/knowledge/upload-url"
                   (VObject [("document_name", documentName)]) ;;
     Return response)
    (fun error =>
       console_error [VStr "获取上传URL失败:"; error] ;;
       Throw error).

Definition uploadFileToOSS (uploadUrl file : JsVal) : Async JsVal :=
  try_catch
    (formData <- FormData_append [] "file" file ;;
     contentType <- get_type file ;;
     response <- await_fetch (mkFetch uploadUrl "PUT" file
                                [("Content-Type", contentType)]) ;;
     if negb (ok response) then
       Throw (Error ("上传失败: " ++ Number_toString (status response) ++ " "
                     ++ statusText response)%string)
     else
       parts <- method_split uploadUrl "?" ;;
       Return (VObject [("success", VBool true); ("url", index parts 0)]))
    (fun error =>
       console_error [VStr "上传文件到OSS失败:"; error] ;;
       Throw error).

Definition crawlSite (crawlData : JsVal) : Async JsVal :=
  try_catch
    (response <- httpClient_post "/api/crawl/site" crawlData ;;
     Return response)
    (fun error =>
       console_error [VStr "爬取网站失败:"; error] ;;
       Throw error).

Definition uploadLocalFile (file collectionId libraryId chunkStrategy : JsVal)
  : Async JsVal :=
  let chunkStrategy := default_param chunkStrategy (VStr "markdown") in
  try_catch
    (formData <- FormData_append [] "file" file ;;
     formData <- FormData_append formData "collection_id" collectionId ;;
     formData <- FormData_append formData "library_id" libraryId ;;
     formData <- FormData_append formData "chunk_strategy" chunkStrategy ;;
     response <- httpClient_post "/api/upload/process" (VFormData formData) ;;
     Return response)
    (fun error =>
       console_error [VStr "本地上传失败:"; error] ;;
       Throw error).

Definition getKnowledgeGraph (collectionId label : JsVal) : Async JsVal :=
  let label := default_param label (VStr "*") in
  try_catch
    (p <- template "/api/visual/graph/" collectionId ;;
     response <- httpClient_get p (Some (VObject [("label", label)])) ;;
     Return response)
    (fun error =>
       console_error [VStr "获取知识图谱失败:"; error] ;;
       Throw error).

Definition processOSSDocument (ossUrl collectionId documentName libraryId : JsVal)
  : Async JsVal :=
  try_catch
    (response <- httpClient_post "/api/crawl/process-oss-document"
                   (VObject [("oss_url", ossUrl);
                             ("collection_id", collectionId);
                             ("document_name", documentName);
                             ("library_id", libraryId)]) ;;
     Return response)
    (fun error =>
       console_error [VStr "处理 OSS 文档失败:"; error] ;;
       Throw error).

(** [new KnowledgeLibraryAPI()]: the class declares no constructor and no
    field, so the instance has no own property. *)
Definition knowledgeAPI : Instance := [].

(** The names of the methods, and a call [knowledgeAPI.name(...args)]: a
    missing argument is [undefined], an extra one is ignored. *)
Inductive Op : Type :=
| op_getLibraries | op_getLibraryDetail | op_createLibrary | op_updateLibrary
| op_deleteLibrary | op_addDocument | op_updateDocument | op_deleteDocument
| op_getUploadUrl | op_uploadFileToOSS | op_crawlSite | op_uploadLocalFile
| op_getKnowledgeGraph | op_processOSSDocument.

Definition argument (args : list JsVal) (i : nat) : JsVal :=
  nth i args VUndefined.

Definition invoke (o : Op) (args : list JsVal) : Async JsVal :=
  let a := argument args in
  match o with
  | op_getLibraries => getLibraries
  | op_getLibraryDetail => getLibraryDetail (a 0%nat)
  | op_createLibrary => createLibrary (a 0%nat)
  | op_updateLibrary => updateLibrary (a 0%nat) (a 1%nat)
  | op_deleteLibrary => deleteLibrary (a 0%nat)
  | op_addDocument => addDocument (a 0%nat)
  | op_updateDocument => updateDocument (a 0%nat) (a 1%nat)
  | op_deleteDocument => deleteDocument (a 0%nat)
  | op_getUploadUrl => getUploadUrl (a 0%nat)
  | op_uploadFileToOSS => uploadFileToOSS (a 0%nat) (a 1%nat)
  | op_crawlSite => crawlSite (a 0%nat)
  | op_uploadLocalFile => uploadLocalFile (a 0%nat) (a 1%nat) (a 2%nat) (a 3%nat)
  | op_getKnowledgeGraph => getKnowledgeGraph (a 0%nat) (a 1%nat)
  | op_processOSSDocument =>
      processOSSDocument (a 0%nat) (a 1%nat) (a 2%nat) (a 3%nat)
  end.

(** The label each method gives its diagnostic. *)
Definition label (o : Op) : string :=
  match o with
  | op_getLibraries => "获取知识库列表失败:"
  | op_getLibraryDetail => "获取知识库详情失败:"
  | op_createLibrary => "创建知识库失败:"
  | op_updateLibrary => "更新知识库失败:"
  | op_deleteLibrary => "删除知识库失败:"
  | op_addDocument => "添加文档失败:"
  | op_updateDocument => "更新文档失败:"
  | op_deleteDocument => "删除文档失败:"
  | op_getUploadUrl => "获取上传URL失败:"
  | op_uploadFileToOSS => "上传文件到OSS失败:"
  | op_crawlSite => "爬取网站失败:"
  | op_uploadLocalFile => "本地上传失败:"
  | op_getKnowledgeGraph => "获取知识图谱失败:"
  | op_processOSSDocument => "处理 OSS 文档失败:"
  end.

(** A sequence of calls on the one instance, each seeing what the earlier
    ones left behind. *)
Fixpoint run_calls (w : World) (past : list Event) (this : Instance)
  (calls : list (Op * list JsVal)) : list (Run JsVal) :=
  match calls with
  | [] => []
  | (o, args) :: rest =>
      let r := run w past this (invoke o args) in
      r :: run_calls w (past ++ events r) (this_after r) rest
  end.

(* ================================================================= *)
(** ** Observations on a run *)

Definition is_request (ev : Event) : bool :=
  match ev with
  | EvHttp _ _ | EvFetch _ _ => true
  | EvConsoleError _ => false
  end.

(** The requests of a run, in order. *)
Definition requests (evs : list Event) : list Event := filter is_request evs.

(** What the outside world answered during a run, in order. *)
Definition answers (evs : list Event) : list (Settled JsVal + Settled Response) :=
  flat_map (fun ev => match ev with
                      | EvHttp _ r => [inl r]
                      | EvFetch _ r => [inr r]
                      | EvConsoleError _ => []
                      end) evs.

(** A computation without an assignment to [this]. *)
Fixpoint no_SetThis {A : Type} (m : Async A) : Prop :=
  match m with
  | Return _ | Throw _ => True
  | AwaitHttp _ k => forall r, no_SetThis (k r)
  | AwaitFetch _ k => forall r, no_SetThis (k r)
  | ConsoleError _ k => no_SetThis k
  | SetThis _ _ _ => False
  | GetThis _ k => forall v, no_SetThis (k v)
  end.

(** A computation that reads no field of [this]. *)
Fixpoint no_GetThis {A : Type} (m : Async A) : Prop :=
  match m with
  | Return _ | Throw _ => True
  | AwaitHttp _ k => forall r, no_GetThis (k r)
  | AwaitFetch _ k => forall r, no_GetThis (k r)
  | ConsoleError _ k => no_GetThis k
  | SetThis _ _ k => no_GetThis k
  | GetThis _ _ => False
  end.

(** [sub] occurs in [s]. *)
Definition contains (sub s : string) : Prop :=
  exists pre post, s = (pre ++ sub ++ post)%string.

(** The character [c] occurs in [s]. *)
Definition occurs (c : ascii) (s : string) : Prop :=
  In c (list_ascii_of_string s).

(* ================================================================= *)
(** ** The operation catalogue of the specification *)

(** A field of a body, query or multipart form, with its default value when
    the catalogue gives one. *)
Record Field : Type := mkField {
  field_name : string;
  field_default : option JsVal
}.

(** The notes column: what a request carries besides its path. *)
Inductive Payload : Type :=
| no_payload
| body_forwarded
| body_fields (fs : list Field)
| query_fields (fs : list Field)
| multipart_fields (fs : list Field).

(** A row: verb, path, whether the path ends in an identifier, payload. *)
Record Row : Type := mkRow {
  row_verb : Verb;
  row_path : string;
  row_id : bool;
  row_payload : Payload
}.

(** The rows served by the shared transport.  The direct upload to object
    storage goes to a URL of the caller's and is not among them. *)
Definition catalogue (o : Op) : option Row :=
  match o with
  | op_getLibraries =>
      Some (mkRow GET "/api/knowledge/libraries" false no_payload)
  | op_getLibraryDetail =>
      Some (mkRow GET "/api/knowledge/libraries/" true no_payload)
  | op_createLibrary =>
      Some (mkRow POST "/api/knowledge/libraries" false body_forwarded)
  | op_updateLibrary =>
      Some (mkRow PUT "/api/knowledge/libraries/" true body_forwarded)
  | op_deleteLibrary =>
      Some (mkRow DELETE "/api/knowledge/libraries/" true no_payload)
  | op_addDocument =>
      Some (mkRow POST "/api/knowledge/documents" false body_forwarded)
  | op_updateDocument =>
      Some (mkRow PUT "/api/knowledge/documents/" true body_forwarded)
  | op_deleteDocument =>
      Some (mkRow DELETE "/api/knowledge/documents/" true no_payload)
  | op_getUploadUrl =>
      Some (mkRow POST "/api/knowledge/upload-url" false
              (body_fields [mkField "document_name" None]))
  | op_uploadFileToOSS => None
  | op_crawlSite =>
      Some (mkRow POST "/api/crawl/site" false body_forwarded)
  | op_uploadLocalFile =>
      Some (mkRow POST "/api/upload/process" false
              (multipart_fields [mkField "file" None;
                                 mkField "collection_id" None;
                                 mkField "library_id" None;
                                 mkField "chunk_strategy" (Some (VStr "markdown"))]))
  | op_getKnowledgeGraph =>
      Some (mkRow GET "/api/visual/graph/" true
              (query_fields [mkField "label" (Some (VStr "*"))]))
  | op_processOSSDocument =>
      Some (mkRow POST "/api/crawl/process-oss-document" false
              (body_fields [mkField "oss_url" None;
                            mkField "collection_id" None;
                            mkField "document_name" None;
                            mkField "library_id" None]))
  end.

(** The fields of a row filled from the arguments, in order. *)
Fixpoint fill (fs : list Field) (args : list JsVal) : list (string * JsVal) :=
  match fs with
  | [] => []
  | f :: fs' =>
      let v := argument args 0 in
      (field_name f,
       match field_default f with
       | Some d => default_param v d
       | None => v
       end) :: fill fs' (tl args)
  end.

(** The value a multipart form holds for an argument. *)
Definition form_value (v : JsVal) : option FormDataEntryValue :=
  match v with
  | VFile f => Some (FFile f)
  | _ => option_map FString (ToString v)
  end.

Fixpoint form_entries (kvs : list (string * JsVal)) : option FormData :=
  match kvs with
  | [] => Some []
  | (k, v) :: rest =>
      match form_value v, form_entries rest with
      | Some e, Some es => Some ((k, e) :: es)
      | _, _ => None
      end
  end.

(** The request a row documents for given arguments; there is none when an
    identifier or a form field has no string form. *)
Definition documented_request (r : Row) (args : list JsVal) : option HttpRequest :=
  let rest := if row_id r then tl args else args in
  let documented_path :=
    if row_id r
    then option_map (String.append (row_path r)) (ToString (argument args 0))
    else Some (row_path r) in
  let documented_arg :=
    match row_payload r with
    | no_payload => Some None
    | body_forwarded => Some (Some (argument rest 0))
    | body_fields fs | query_fields fs => Some (Some (VObject (fill fs rest)))
    | multipart_fields fs =>
        option_map (fun es => Some (VFormData es)) (form_entries (fill fs rest))
    end in
  match documented_path, documented_arg with
  | Some p, Some a => Some (mkHttp (row_verb r) p a)
  | _, _ => None
  end.

(** A transport that answers every request with the same value. *)
Definition always (v : JsVal) : World :=
  mkWorld (fun _ _ => Fulfilled v) (fun _ _ => Fulfilled (mkResponse 200 "OK")).

(** A transport and a network that reject every request with the same
    reason. *)
Definition never (e : JsVal) : World :=
  mkWorld (fun _ _ => Rejected e) (fun _ _ => Rejected e).

(** A network that answers every upload with the same response. *)
Definition answering (resp : Response) : World :=
  mkWorld (fun _ _ => Fulfilled VNull) (fun _ _ => Fulfilled resp).

(** A transport that fulfils the requests for one path only. *)
Definition only (p : string) (v : JsVal) : World :=
  mkWorld (fun _ req => if String.eqb (path req) p then Fulfilled v
                        else Rejected (Error "Not Found"))
          (fun _ _ => Rejected (TypeError "Failed to fetch")).

Definition report : File.t := File.mk "report.pdf" "application/pdf" [].

(** The diagnostics of a run, in order. *)
Definition diagnostics (evs : list Event) : list Event :=
  filter (fun ev => negb (is_request ev)) evs.

(** The line a method writes when it fails with [e]. *)
Definition diagnostic (o : Op) (e : JsVal) : Event :=
  EvConsoleError [VStr (label o); e].

Definition is_rejected {A : Type} (s : Settled A) : bool :=
  match s with
  | Fulfilled _ => false
  | Rejected _ => true
  end.

(** Everything observed over a sequence of calls. *)
Definition all_events (rs : list (Run JsVal)) : list Event :=
  concat (map events rs).

(** The methods that put their first argument into the path. *)
Definition interpolates (o : Op) : bool :=
  match o with
  | op_getLibraryDetail | op_updateLibrary | op_deleteLibrary
  | op_updateDocument | op_deleteDocument | op_getKnowledgeGraph => true
  | _ => false
  end.

(** The methods that hand their arguments to the transport untouched. *)
Definition forwards_only (o : Op) : bool :=
  match o with
  | op_getLibraries | op_createLibrary | op_addDocument | op_getUploadUrl
  | op_crawlSite | op_processOSSDocument => true
  | _ => false
  end.

(** What a method with a cache would look like: it answers from a field of
    [this] when the field is set and asks the transport otherwise. *)
Definition cached_getLibraries : Async JsVal :=
  GetThis "libraries"
    (fun cached =>
       match cached with
       | VUndefined => getLibraries
       | _ => Return cached
       end).

(** A stand-in for a [URL] object. *)
Definition url_object : JsVal :=
  VObject [("href", VStr "https://oss.example.com/kb/report.pdf?sig=1")].

(* ================================================================= *)
(** ** Strings *)

Lemma append_nil_r (s : string) : (s ++ "")%string = s.
Proof. induction s as [|c s IH]; simpl; [reflexivity | now rewrite IH]. Qed.

Lemma append_assoc (s t u : string) :
  ((s ++ t) ++ u)%string = (s ++ t ++ u)%string.
Proof. induction s as [|c s IH]; simpl; [reflexivity | now rewrite IH]. Qed.

Lemma contains_middle (pre sub post : string) :
  contains sub (pre ++ sub ++ post)%string.
Proof. now exists pre, post. Qed.

Lemma contains_end (pre sub : string) : contains sub (pre ++ sub)%string.
Proof. exists pre, ""%string. now rewrite append_nil_r. Qed.

(** [split] never returns an empty array. *)
Lemma split_nonempty (sep : ascii) (s : string) : split sep s <> [].
Proof.
  destruct s as [|c s]; simpl; [discriminate|].
  destruct (Ascii.eqb c sep); [discriminate|].
  destruct (split sep s); discriminate.
Qed.

(** The first part of a split is what precedes the first separator. *)
Lemma split_first (sep : ascii) (s : string) :
  exists p tl,
    split sep s = p :: tl /\
    ~ occurs sep p /\
    ((s = p /\ tl = []) \/
     exists rest, s = (p ++ String sep rest)%string /\ tl = split sep rest).
Proof.
  induction s as [|c s IH]; simpl.
  - exists ""%string, []. split; [reflexivity|]. split; [intros []|now left].
  - destruct (Ascii.eqb_spec c sep) as [->|Hne].
    + exists ""%string, (split sep s).
      split; [reflexivity|]. split; [intros []|].
      right. now exists s.
    + destruct IH as (p & tl & -> & Hp & Hs).
      exists (String c p), tl.
      split; [reflexivity|]. split.
      * intros [Hc|Hin]; [now apply Hne | now apply Hp].
      * destruct Hs as [[-> ->]|(rest & -> & ->)]; [now left|].
        right. now exists rest.
Qed.

(** Without a separator the split is the string itself. *)
Lemma split_without (sep : ascii) (s : string) :
  ~ occurs sep s -> split sep s = [s].
Proof.
  induction s as [|c s IH]; simpl; intros Hno; [reflexivity|].
  destruct (Ascii.eqb_spec c sep) as [->|Hne].
  - exfalso. apply Hno. now left.
  - rewrite IH; [reflexivity|]. intros Hin. apply Hno. now right.
Qed.

Lemma ok_true (r : Response) : 200 <= status r <= 299 -> ok r = true.
Proof. unfold ok. intros [H1 H2]. apply andb_true_intro. split; lia. Qed.

Lemma ok_false (r : Response) : ~ (200 <= status r <= 299) -> ok r = false.
Proof.
  unfold ok. intros H. apply not_true_is_false. intros E.
  apply andb_prop in E. apply H. lia.
Qed.

(* ================================================================= *)
(** ** The direct upload *)

Arguments Number_toString : simpl never.
Arguments Number.toString : simpl never.
Arguments split : simpl never.

(** The request [uploadFileToOSS] sends for a file. *)
Lemma uploadFileToOSS_run (uploadUrl : JsVal) (file : File.t)
  (w : World) (past : list Event) (this : Instance) :
  let req := mkFetch uploadUrl "PUT" (VFile file)
               [("Content-Type", VStr (File.type file))] in
  exists tail,
    run w past this (uploadFileToOSS uploadUrl (VFile file)) =
    observe (EvFetch req (fetch w past req)) tail /\
    requests (events tail) = [] /\
    (forall resp, fetch w past req = Fulfilled resp -> ok resp = false ->
       settled tail =
       Rejected (Error ("上传失败: " ++ Number_toString (status resp) ++ " "
                        ++ statusText resp)%string)) /\
    (forall resp s, fetch w past req = Fulfilled resp -> ok resp = true ->
       uploadUrl = VStr s ->
       settled tail =
       Fulfilled (VObject [("success", VBool true);
                           ("url", index (split "?" s) 0)])).
Proof.
  cbn. eexists. split; [reflexivity|].
  destruct (fetch w past _) as [resp|e]; cbn.
  - destruct (ok resp) eqn:Hok; cbn.
    + destruct uploadUrl; cbn; repeat split; try reflexivity;
        intros; try discriminate; try congruence.
    + repeat split; intros; try discriminate; congruence.
  - repeat split; intros; discriminate.
Qed.

(** C3: when the network answers the upload of a file to the string
    [uploadUrl] with a 2xx response, [uploadFileToOSS] resolves to
    [{success: true, url: p}] where [p] is the part of [uploadUrl] before its
    first ['?']: [p] holds no ['?'], and [uploadUrl] is [p] itself or [p]
    followed by ['?'] and a rest (in which further ['?'] may occur). *)
Theorem uploadFileToOSS_success_strips_query
  (uploadUrl : string) (file : File.t)
  (w : World) (past : list Event) (this : Instance) (resp : Response) :
  fetch w past (mkFetch (VStr uploadUrl) "PUT" (VFile file)
                  [("Content-Type", VStr (File.type file))]) = Fulfilled resp ->
  200 <= status resp <= 299 ->
  exists p,
    settled (run w past this (uploadFileToOSS (VStr uploadUrl) (VFile file))) =
    Fulfilled (VObject [("success", VBool true); ("url", VStr p)]) /\
    ~ occurs "?" p /\
    (uploadUrl = p \/ exists rest, uploadUrl = (p ++ "?" ++ rest)%string).
Proof.
  intros Hfetch H2xx.
  destruct (uploadFileToOSS_run (VStr uploadUrl) file w past this)
    as (tail & -> & _ & _ & Hok).
  destruct (split_first "?" uploadUrl) as (p & tl & Hsplit & Hp & Hshape).
  exists p. split; [|split; [exact Hp|]].
  - cbn [observe settled].
    rewrite (Hok resp uploadUrl Hfetch (ok_true resp H2xx) eq_refl).
    now rewrite Hsplit.
  - destruct Hshape as [[-> _]|(rest & -> & _)]; [now left|].
    right. now exists rest.
Qed.

Lemma uploadFileToOSS_success_strips_query_witness :
  exists p,
    settled (run (answering (mkResponse 200 "OK")) [] knowledgeAPI
               (uploadFileToOSS
                  (VStr "https://oss.example.com/kb/report.pdf?Expires=1?Signature=s")
                  (VFile report))) =
    Fulfilled (VObject [("success", VBool true); ("url", VStr p)]) /\
    ~ occurs "?" p /\
    ("https://oss.example.com/kb/report.pdf?Expires=1?Signature=s"%string = p \/
     exists rest,
       "https://oss.example.com/kb/report.pdf?Expires=1?Signature=s"%string =
       (p ++ "?" ++ rest)%string).
Proof.
  apply (uploadFileToOSS_success_strips_query
           "https://oss.example.com/kb/report.pdf?Expires=1?Signature=s"
           report (answering (mkResponse 200 "OK")) [] knowledgeAPI
           (mkResponse 200 "OK")).
  - reflexivity.
  - simpl. lia.
Defined.

(** A URL with two ['?'] is cut at the first one. *)
Example uploadFileToOSS_two_question_marks :
  settled (run (answering (mkResponse 200 "OK")) [] knowledgeAPI
             (uploadFileToOSS (VStr "https://h/a?x=1?y=2") (VFile report))) =
  Fulfilled (VObject [("success", VBool true); ("url", VStr "https://h/a")]).
Proof. reflexivity. Qed.

(** C9: when [uploadUrl] holds no ['?'] and the network answers with a 2xx
    response, the [url] of the result is [uploadUrl] itself. *)
Theorem uploadFileToOSS_success_without_query
  (uploadUrl : string) (file : File.t)
  (w : World) (past : list Event) (this : Instance) (resp : Response) :
  ~ occurs "?" uploadUrl ->
  fetch w past (mkFetch (VStr uploadUrl) "PUT" (VFile file)
                  [("Content-Type", VStr (File.type file))]) = Fulfilled resp ->
  200 <= status resp <= 299 ->
  settled (run w past this (uploadFileToOSS (VStr uploadUrl) (VFile file))) =
  Fulfilled (VObject [("success", VBool true); ("url", VStr uploadUrl)]).
Proof.
  intros Hno Hfetch H2xx.
  destruct (uploadFileToOSS_run (VStr uploadUrl) file w past this)
    as (tail & -> & _ & _ & Hok).
  cbn [observe settled].
  rewrite (Hok resp uploadUrl Hfetch (ok_true resp H2xx) eq_refl).
  now rewrite (split_without "?" uploadUrl Hno).
Qed.

Lemma uploadFileToOSS_success_without_query_witness :
  settled (run (answering (mkResponse 204 "No Content")) [] knowledgeAPI
             (uploadFileToOSS (VStr "https://oss.example.com/kb/report.pdf")
                (VFile report))) =
  Fulfilled (VObject [("success", VBool true);
                      ("url", VStr "https://oss.example.com/kb/report.pdf")]).
Proof.
  apply (uploadFileToOSS_success_without_query
           "https://oss.example.com/kb/report.pdf" report
           (answering (mkResponse 204 "No Content")) [] knowledgeAPI
           (mkResponse 204 "No Content")).
  - unfold occurs. simpl. intuition discriminate.
  - reflexivity.
  - simpl. lia.
Defined.

(** C4: when the network answers the upload of a file with a response that
    is not 2xx, [uploadFileToOSS] rejects with an [Error] made on the spot
    whose message holds the status in decimal and the status text; for the
    status 403 the message holds "403". *)
Theorem uploadFileToOSS_failure_message
  (uploadUrl : JsVal) (file : File.t)
  (w : World) (past : list Event) (this : Instance) (resp : Response) :
  fetch w past (mkFetch uploadUrl "PUT" (VFile file)
                  [("Content-Type", VStr (File.type file))]) = Fulfilled resp ->
  ~ (200 <= status resp <= 299) ->
  exists message,
    settled (run w past this (uploadFileToOSS uploadUrl (VFile file))) =
    Rejected (Error message) /\
    contains (Number_toString (status resp)) message /\
    contains (statusText resp) message /\
    (status resp = 403 -> contains "403" message).
Proof.
  intros Hfetch Hnot.
  destruct (uploadFileToOSS_run uploadUrl file w past this)
    as (tail & -> & _ & Hfail & _).
  eexists. split; [|split; [|split]].
  - cbn [observe settled]. exact (Hfail resp Hfetch (ok_false resp Hnot)).
  - apply contains_middle.
  - rewrite <- !append_assoc. apply contains_end.
  - intros ->. apply contains_middle.
Qed.

Lemma uploadFileToOSS_failure_message_witness :
  exists message,
    settled (run (answering (mkResponse 403 "Forbidden")) [] knowledgeAPI
               (uploadFileToOSS (VStr "https://oss.example.com/kb/report.pdf?s=1")
                  (VFile report))) =
    Rejected (Error message) /\
    contains (Number_toString 403) message /\
    contains "Forbidden" message /\
    (403 = 403 -> contains "403" message).
Proof.
  apply (uploadFileToOSS_failure_message
           (VStr "https://oss.example.com/kb/report.pdf?s=1") report
           (answering (mkResponse 403 "Forbidden")) [] knowledgeAPI
           (mkResponse 403 "Forbidden")).
  - reflexivity.
  - simpl. lia.
Defined.

(** C5: whatever [uploadUrl] and the file are and whatever the network
    answers, the requests of [uploadFileToOSS] are exactly one call of
    [fetch], none of the shared transport: a PUT to [uploadUrl] whose body
    is the file itself (not the form built from it) and whose Content-Type
    header is the file's [type]. *)
Theorem uploadFileToOSS_sends_raw_file
  (uploadUrl : JsVal) (file : File.t)
  (w : World) (past : list Event) (this : Instance) :
  let req := mkFetch uploadUrl "PUT" (VFile file)
               [("Content-Type", VStr (File.type file))] in
  requests (events (run w past this (uploadFileToOSS uploadUrl (VFile file)))) =
  [EvFetch req (fetch w past req)].
Proof.
  intros req.
  destruct (uploadFileToOSS_run uploadUrl file w past this)
    as (tail & -> & Hnone & _).
  cbn [observe events requests filter is_request].
  fold (requests (events tail)). now rewrite Hnone.
Qed.

(* ================================================================= *)
(** ** Default arguments *)

(** C6: for every string [collectionId], the call
    [getKnowledgeGraph(collectionId)] without a label makes exactly one
    request whatever the transport answers: a GET of
    ['/api/visual/graph/'] followed by [collectionId], with the query
    [{label: '*'}]. *)
Theorem getKnowledgeGraph_default_label
  (collectionId : string) (w : World) (past : list Event) (this : Instance) :
  let req := mkHttp GET ("/api/visual/graph/" ++ collectionId)%string
               (Some (VObject [("label", VStr "*")])) in
  requests (events (run w past this
                      (invoke op_getKnowledgeGraph [VStr collectionId]))) =
  [EvHttp req (httpClient w past req)].
Proof.
  cbn. destruct (httpClient w past _); reflexivity.
Qed.

(** C7: for every file, string [collectionId] and number [libraryId], the
    call [uploadLocalFile(file, collectionId, libraryId)] without a strategy
    makes exactly one request whatever the transport answers: a POST to
    ['/api/upload/process'] whose body is a multipart form with the fields
    [file], [collection_id], [library_id] and [chunk_strategy], in this
    order, the last one being ["markdown"]; [library_id] holds the string
    form of the number. *)
Theorem uploadLocalFile_default_strategy
  (file : File.t) (collectionId : string) (libraryId : Number.t)
  (w : World) (past : list Event) (this : Instance) :
  let req := mkHttp POST "/api/upload/process"
               (Some (VFormData [("file", FFile file);
                                 ("collection_id", FString collectionId);
                                 ("library_id", FString (Number.toString libraryId));
                                 ("chunk_strategy", FString "markdown")])) in
  requests (events (run w past this
                      (invoke op_uploadLocalFile
                         [VFile file; VStr collectionId; VNum libraryId]))) =
  [EvHttp req (httpClient w past req)].
Proof.
  cbn. destruct (httpClient w past _); reflexivity.
Qed.

(** A number beyond the safe integers goes into the form the way
    JavaScript prints it. *)
Example uploadLocalFile_large_libraryId :
  requests (events (run (always VNull) [] knowledgeAPI
                      (invoke op_uploadLocalFile
                         [VFile report; VStr "col-1";
                          VNum (Number.Other "-1e+21")]))) =
  [EvHttp (mkHttp POST "/api/upload/process"
             (Some (VFormData [("file", FFile report);
                               ("collection_id", FString "col-1");
                               ("library_id", FString "-1e+21");
                               ("chunk_strategy", FString "markdown")])))
          (Fulfilled VNull)].
Proof. reflexivity. Qed.

(** The example of the specification: [uploadLocalFile(file, 'col-1', 42)]. *)
Example uploadLocalFile_col1_42 :
  events (run (always VNull) [] knowledgeAPI
            (invoke op_uploadLocalFile [VFile report; VStr "col-1"; VNum (int 42)])) =
  [EvHttp (mkHttp POST "/api/upload/process"
             (Some (VFormData [("file", FFile report);
                               ("collection_id", FString "col-1");
                               ("library_id", FString "42");
                               ("chunk_strategy", FString "markdown")])))
          (Fulfilled VNull)].
Proof. reflexivity. Qed.

(* ================================================================= *)
(** ** The catalogue operations *)

(** The values without a string form. *)
Lemma ToString_None (v : JsVal) :
  ToString v = None <->
  (exists description, v = VSymbol description) \/
  (exists props, v = VObject props /\ has_own "toString" props = true).
Proof.
  split.
  - destruct v as [| |[|]| | | |props| | |]; cbn; try discriminate.
    + left. now eexists.
    + destruct (has_own "toString" props) eqn:E; [|discriminate].
      right. now eexists.
  - intros [[d ->]|(props & -> & E)]; cbn; [reflexivity | now rewrite E].
Qed.

Lemma form_value_Some (v : JsVal) :
  ToString v <> None -> exists e, form_value v = Some e.
Proof.
  intros H. destruct v as [| |[|]| | | |props| | |]; cbn in *;
    try (eexists; reflexivity).
  - now destruct H.
  - destruct (has_own "toString" props); [now destruct H | now eexists].
Qed.

Lemma FormData_append_form_value (fd : FormData) (name : string) (v : JsVal) :
  FormData_append fd name v =
  match form_value v with
  | Some e => Return (fd ++ [(name, e)])
  | None => Throw (ToString_error v)
  end.
Proof.
  destruct v as [| |[|]| | | |props| | |]; try reflexivity.
  cbn. now destruct (has_own "toString" props).
Qed.

Arguments default_param : simpl never.

Create HintDb methods.
#[local] Hint Unfold invoke getLibraries getLibraryDetail createLibrary
  updateLibrary deleteLibrary addDocument updateDocument deleteDocument
  getUploadUrl uploadFileToOSS crawlSite uploadLocalFile getKnowledgeGraph
  processOSSDocument template : methods.

Ltac args_cases args :=
  destruct args as [|?a0 [|?a1 [|?a2 [|?a3 ?rest]]]].

(** Every argument list whose values have a string form has a documented
    request. *)
Lemma documented_request_defined (o : Op) (row : Row) (args : list JsVal) :
  catalogue o = Some row ->
  Forall (fun a => ToString a <> None) args ->
  exists req, documented_request row args = Some req.
Proof.
  intros Hrow Hargs.
  assert (Hstr : forall a, ToString a <> None -> exists s, ToString a = Some s).
  { intros a Ha. destruct (ToString a); [now eexists | now destruct Ha]. }
  assert (Hdflt : forall a d, ToString a <> None ->
                              ToString (default_param a (VStr d)) <> None).
  { intros a d Ha. destruct a; try exact Ha. discriminate. }
  destruct o; inversion Hrow; subst row; clear Hrow; unfold documented_request.
  all: args_cases args; cbn.
  all: repeat match goal with
         | H : Forall _ (_ :: _) |- _ => inversion H; subst; clear H
         end.
  all: repeat match goal with
         | |- context [ToString ?x] =>
             let s := fresh "s" in
             let E := fresh "E" in
             destruct (Hstr x) as [s E];
             [first [assumption | discriminate]|]; rewrite E; cbn
         | |- context [form_value ?x] =>
             let s := fresh "s" in
             let E := fresh "E" in
             destruct (form_value_Some x) as [s E];
             [first [assumption | discriminate | now apply Hdflt]|];
             rewrite E; cbn
         end.
  all: now eexists.
Qed.

(** C1, amended: for every catalogue operation and every argument list for
    which the catalogue documents a request (that is, whose identifier and
    form fields have a string form; a Symbol has none), when the transport
    fulfils that request with a value, the run consists of exactly this one
    request, with the documented verb, path and body or query, the instance
    is left as it was, and the operation resolves to the transport's value
    unchanged. *)
Theorem catalogue_request_and_response
  (o : Op) (row : Row) (args : list JsVal) (req : HttpRequest)
  (w : World) (past : list Event) (this : Instance) (v : JsVal) :
  catalogue o = Some row ->
  documented_request row args = Some req ->
  httpClient w past req = Fulfilled v ->
  run w past this (invoke o args) =
  mkRun [EvHttp req (Fulfilled v)] this (Fulfilled v).
Proof.
  intros Hrow Hdoc Hw.
  destruct o; inversion Hrow; subst row; clear Hrow;
    unfold documented_request in Hdoc; cbn in Hdoc.
  all: args_cases args; cbn in Hdoc.
  all: repeat match type of Hdoc with
         | context [ToString ?x] => destruct (ToString x) eqn:?; cbn in Hdoc
         | context [form_value ?x] => destruct (form_value x) eqn:?; cbn in Hdoc
         end;
       try discriminate Hdoc.
  all: injection Hdoc as <-.
  all: autounfold with methods; cbn; rewrite ?FormData_append_form_value;
       repeat match goal with
         | E : ToString _ = _ |- _ => rewrite E; clear E; cbn
         | E : form_value _ = _ |- _ =>
             rewrite E; clear E; cbn; rewrite ?FormData_append_form_value
         end.
  all: rewrite Hw; reflexivity.
Qed.

Lemma catalogue_request_and_response_witness :
  run (always (VObject [("nodes", VNull)])) [] knowledgeAPI
      (invoke op_updateLibrary [VNum (int 7); VObject [("title", VStr "Notes")]]) =
  mkRun [EvHttp (mkHttp PUT "/api/knowledge/libraries/7"
                   (Some (VObject [("title", VStr "Notes")])))
                (Fulfilled (VObject [("nodes", VNull)]))]
        knowledgeAPI
        (Fulfilled (VObject [("nodes", VNull)])).
Proof.
  apply (catalogue_request_and_response op_updateLibrary
           (mkRow PUT "/api/knowledge/libraries/" true body_forwarded)
           [VNum (int 7); VObject [("title", VStr "Notes")]]
           (mkHttp PUT "/api/knowledge/libraries/7"
              (Some (VObject [("title", VStr "Notes")])))
           (always (VObject [("nodes", VNull)])) [] knowledgeAPI
           (VObject [("nodes", VNull)])).
  - reflexivity.
  - reflexivity.
  - reflexivity.
Defined.

(** C1 as stated fails: with a Symbol as the identifier, [getLibraryDetail]
    throws while it builds the path, so a transport that would fulfil every
    request is never called and the operation rejects. *)
Lemma catalogue_any_input_fails :
  ~ (forall (o : Op) (args : list JsVal) (w : World) (past : list Event)
            (this : Instance) (v : JsVal),
        catalogue o <> None ->
        (forall h r, httpClient w h r = Fulfilled v) ->
        exists req,
          requests (events (run w past this (invoke o args))) =
          [EvHttp req (Fulfilled v)] /\
          settled (run w past this (invoke o args)) = Fulfilled v).
Proof.
  intros H.
  destruct (H op_getLibraryDetail [VSymbol "id"] (always VNull) []
              knowledgeAPI VNull) as (req & Hreq & _).
  - discriminate.
  - reflexivity.
  - discriminate Hreq.
Qed.

(** What happens there: no request, one diagnostic, a [TypeError]. *)
Example getLibraryDetail_symbol :
  run (always VNull) [] knowledgeAPI (invoke op_getLibraryDetail [VSymbol "id"]) =
  mkRun [EvConsoleError
           [VStr "获取知识库详情失败:";
            TypeError "Cannot convert a Symbol value to a string"]]
        knowledgeAPI
        (Rejected (TypeError "Cannot convert a Symbol value to a string")).
Proof. reflexivity. Qed.

(* ================================================================= *)
(** ** Failures *)

Lemma label_injective (o o' : Op) : label o' = label o -> o' = o.
Proof. destruct o, o'; intros H; try reflexivity; discriminate H. Qed.

Lemma get_type_cases (v : JsVal) :
  (exists x, get_type v = Return x) \/ (exists e, get_type v = Throw e).
Proof. destruct v; cbn; eauto. Qed.

Lemma method_split_cases (v : JsVal) (sep : ascii) :
  (exists parts, method_split v sep = Return parts) \/
  (exists e, method_split v sep = Throw e).
Proof. destruct v; cbn; eauto. Qed.

(** Case analysis on everything a run of a method depends on: the string
    forms of its arguments and the answers of the outside world. *)
Ltac run_cases w :=
  repeat match goal with
    | |- context [ToString ?x] => destruct (ToString x); cbn
    | |- context [form_value ?x] =>
        destruct (form_value x); cbn; rewrite ?FormData_append_form_value
    | |- context [get_type ?x] =>
        destruct (get_type_cases x) as [[? ->]|[? ->]]; cbn
    | |- context [method_split ?x ?c] =>
        destruct (method_split_cases x c) as [[? ->]|[? ->]]; cbn
    | |- context [httpClient w ?h ?r] => destruct (httpClient w h r); cbn
    | |- context [fetch w ?h ?r] => destruct (fetch w h r); cbn
    | |- context [ok ?r] => destruct (ok r); cbn
    end.

Ltac decompose_or H :=
  repeat match type of H with
    | _ \/ _ => destruct H as [H|H]
    | False => destruct H
    end.

(** C2, amended: for every catalogue operation, every argument list for
    which the catalogue documents a request (that is, whose identifier and
    form fields have a string form) and every failure value [e], when the
    transport rejects that request with [e], the run is exactly this one
    request followed by exactly one diagnostic, which carries the label of
    the operation and [e]; there is no second request, the instance is left
    as it was, and the operation rejects with [e] itself.  No two
    operations share a label. *)
Theorem transport_rejection_logged_and_rethrown
  (o : Op) (row : Row) (args : list JsVal) (req : HttpRequest)
  (w : World) (past : list Event) (this : Instance) (e : JsVal) :
  catalogue o = Some row ->
  documented_request row args = Some req ->
  httpClient w past req = Rejected e ->
  run w past this (invoke o args) =
  mkRun [EvHttp req (Rejected e); EvConsoleError [VStr (label o); e]]
        this (Rejected e) /\
  (forall o', label o' = label o -> o' = o).
Proof.
  intros Hrow Hdoc Hw.
  split; [|intros o'; apply label_injective].
  destruct o; inversion Hrow; subst row; clear Hrow;
    unfold documented_request in Hdoc; cbn in Hdoc.
  all: args_cases args; cbn in Hdoc.
  all: repeat match type of Hdoc with
         | context [ToString ?x] => destruct (ToString x) eqn:?; cbn in Hdoc
         | context [form_value ?x] => destruct (form_value x) eqn:?; cbn in Hdoc
         end;
       try discriminate Hdoc.
  all: injection Hdoc as <-.
  all: autounfold with methods; cbn; rewrite ?FormData_append_form_value;
       repeat match goal with
         | E : ToString _ = _ |- _ => rewrite E; clear E; cbn
         | E : form_value _ = _ |- _ =>
             rewrite E; clear E; cbn; rewrite ?FormData_append_form_value
         end.
  all: rewrite Hw; reflexivity.
Qed.

Lemma transport_rejection_logged_and_rethrown_witness :
  run (never (Error "timeout")) [] knowledgeAPI
      (invoke op_deleteDocument [VNum (int 3)]) =
  mkRun [EvHttp (mkHttp DELETE "/api/knowledge/documents/3" None)
                (Rejected (Error "timeout"));
         EvConsoleError [VStr (label op_deleteDocument); Error "timeout"]]
        knowledgeAPI (Rejected (Error "timeout")) /\
  (forall o', label o' = label op_deleteDocument -> o' = op_deleteDocument).
Proof.
  apply (transport_rejection_logged_and_rethrown op_deleteDocument
           (mkRow DELETE "/api/knowledge/documents/" true no_payload)
           [VNum (int 3)]
           (mkHttp DELETE "/api/knowledge/documents/3" None)
           (never (Error "timeout")) [] knowledgeAPI (Error "timeout")).
  - reflexivity.
  - reflexivity.
  - reflexivity.
Defined.

(** C2 as stated fails: with a Symbol as the identifier, [getLibraryDetail]
    throws while it builds the path, so a transport that rejects every
    request with a timeout is never called, and the operation rejects with
    the [TypeError] of the conversion, not with the transport's failure. *)
Lemma rejecting_transport_any_input_fails :
  ~ (forall (o : Op) (args : list JsVal) (w : World) (past : list Event)
            (this : Instance) (e : JsVal),
        catalogue o <> None ->
        (forall h r, httpClient w h r = Rejected e) ->
        settled (run w past this (invoke o args)) = Rejected e).
Proof.
  intros H.
  assert (Hsettled := H op_getLibraryDetail [VSymbol "id"]
                        (never (Error "timeout")) [] knowledgeAPI
                        (Error "timeout")).
  cbn in Hsettled.
  assert (Hrej : Rejected (A := JsVal) (ToString_error (VSymbol "id")) =
                 Rejected (Error "timeout")).
  { apply Hsettled; [discriminate | reflexivity]. }
  discriminate Hrej.
Qed.

(** What happens there: no request, and the diagnostic and the rejection
    carry the [TypeError]. *)
Example getLibraryDetail_symbol_rejecting_transport :
  run (never (Error "timeout")) [] knowledgeAPI
      (invoke op_getLibraryDetail [VSymbol "id"]) =
  mkRun [EvConsoleError
           [VStr "获取知识库详情失败:";
            TypeError "Cannot convert a Symbol value to a string"]]
        knowledgeAPI
        (Rejected (TypeError "Cannot convert a Symbol value to a string")).
Proof. reflexivity. Qed.

(** The direct upload treats a failure of the network in the same way,
    for every URL and file. *)
Lemma uploadFileToOSS_network_rejection
  (uploadUrl : JsVal) (file : File.t)
  (w : World) (past : list Event) (this : Instance) (e : JsVal) :
  let req := mkFetch uploadUrl "PUT" (VFile file)
               [("Content-Type", VStr (File.type file))] in
  fetch w past req = Rejected e ->
  run w past this (uploadFileToOSS uploadUrl (VFile file)) =
  mkRun [EvFetch req (Rejected e);
         EvConsoleError [VStr (label op_uploadFileToOSS); e]]
        this (Rejected e).
Proof.
  intros req Hfetch. subst req.
  unfold uploadFileToOSS; cbn. rewrite Hfetch. reflexivity.
Qed.

(** The same for the direct upload, whose request goes to the network. *)
Example uploadFileToOSS_network_failure :
  run (never (TypeError "Failed to fetch")) [] knowledgeAPI
      (invoke op_uploadFileToOSS [VStr "https://h/a?x=1"; VFile report]) =
  mkRun [EvFetch (mkFetch (VStr "https://h/a?x=1") "PUT" (VFile report)
                    [("Content-Type", VStr "application/pdf")])
                 (Rejected (TypeError "Failed to fetch"));
         EvConsoleError [VStr "上传文件到OSS失败:"; TypeError "Failed to fetch"]]
        knowledgeAPI
        (Rejected (TypeError "Failed to fetch")).
Proof. reflexivity. Qed.

(* ================================================================= *)
(** ** The instance *)

Lemma no_SetThis_run {A : Type} (m : Async A) :
  no_SetThis m ->
  forall w past this, this_after (run w past this m) = this.
Proof.
  induction m as [a|e|req k IH|req k IH|args k IH|field v k IH|field k IH];
    cbn; intros Hno w past this; auto.
  destruct Hno.
Qed.

Lemma invoke_no_SetThis (o : Op) (args : list JsVal) :
  no_SetThis (invoke o args).
Proof.
  destruct o; autounfold with methods; cbn;
    rewrite ?FormData_append_form_value;
    repeat (cbn;
            match goal with
            | |- True => exact I
            | |- forall r : Settled _, _ => intros [?|?]
            | |- context [ToString ?x] => destruct (ToString x)
            | |- context [form_value ?x] =>
                destruct (form_value x); cbn;
                rewrite ?FormData_append_form_value
            | |- context [get_type ?x] =>
                destruct (get_type_cases x) as [[? ->]|[? ->]]
            | |- context [method_split ?x ?c] =>
                destruct (method_split_cases x c) as [[? ->]|[? ->]]
            | |- context [ok ?r] => destruct (ok r)
            end).
Qed.

Lemma invoke_this_after (o : Op) (args : list JsVal)
  (w : World) (past : list Event) (this : Instance) :
  this_after (run w past this (invoke o args)) = this.
Proof. apply no_SetThis_run, invoke_no_SetThis. Qed.

(** C8: whatever the instance holds (the singleton holds nothing), whatever
    the world answers and whatever sequence of calls is made, the instance
    after each call of the sequence is the instance before the first one:
    no method assigns a field of [this]. *)
Theorem instance_never_mutated
  (w : World) (calls : list (Op * list JsVal))
  (past : list Event) (this : Instance) :
  Forall (fun r => this_after r = this) (run_calls w past this calls).
Proof.
  revert past. induction calls as [|[o args] calls IH]; intros past; cbn.
  - constructor.
  - constructor.
    + apply invoke_this_after.
    + rewrite invoke_this_after. apply IH.
Qed.

(** The machine can tell: a computation that does assign is seen to. *)
Example SetThis_is_observed :
  this_after (run (always VNull) [] knowledgeAPI
                (SetThis "lastLibrary" (VNum (int 7)) getLibraries)) =
  [("lastLibrary", VNum (int 7))].
Proof. reflexivity. Qed.

(* ================================================================= *)
(** ** Determinism *)

(** A computation that reads no field of [this] is a function of the
    answers it receives: two runs that are given the same answers observe
    the same events and settle alike, even in different worlds, after
    different pasts and on different instances. *)
Lemma run_determined_by_answers {A : Type} (m : Async A) :
  no_GetThis m ->
  forall w1 w2 past1 past2 this1 this2,
    answers (events (run w1 past1 this1 m)) =
    answers (events (run w2 past2 this2 m)) ->
    events (run w1 past1 this1 m) = events (run w2 past2 this2 m) /\
    settled (run w1 past1 this1 m) = settled (run w2 past2 this2 m).
Proof.
  induction m as [a|e|req k IH|req k IH|args k IH|field v k IH|field k IH];
    intros Hno w1 w2 past1 past2 this1 this2; cbn in *.
  - auto.
  - auto.
  - intros H. injection H as Hres Hrest.
    rewrite Hres in *.
    destruct (IH _ (Hno _) _ _ _ _ _ _ Hrest) as [-> ->]. auto.
  - intros H. injection H as Hres Hrest.
    rewrite Hres in *.
    destruct (IH _ (Hno _) _ _ _ _ _ _ Hrest) as [-> ->]. auto.
  - intros H. destruct (IH Hno _ _ _ _ _ _ H) as [-> ->]. auto.
  - apply (IH Hno).
  - destruct Hno.
Qed.

(** No method reads a field of [this]. *)
Lemma invoke_no_GetThis (o : Op) (args : list JsVal) :
  no_GetThis (invoke o args).
Proof.
  destruct o; autounfold with methods; cbn;
    rewrite ?FormData_append_form_value;
    repeat (cbn;
            match goal with
            | |- True => exact I
            | |- forall r : Settled _, _ => intros [?|?]
            | |- context [ToString ?x] => destruct (ToString x)
            | |- context [form_value ?x] =>
                destruct (form_value x); cbn;
                rewrite ?FormData_append_form_value
            | |- context [get_type ?x] =>
                destruct (get_type_cases x) as [[? ->]|[? ->]]
            | |- context [method_split ?x ?c] =>
                destruct (method_split_cases x c) as [[? ->]|[? ->]]
            | |- context [ok ?r] => destruct (ok r)
            end).
Qed.

(** The property is one of the methods, not of the language they are
    written in: a method that answers from a field of [this] gives, for the
    same arguments and the same answers of the world (none at all), one
    result on one instance and another on another. *)
Example cached_getLibraries_not_deterministic :
  answers (events (run (always VNull) [] [("libraries", VStr "a")]
                     cached_getLibraries)) =
  answers (events (run (always VNull) [] [("libraries", VStr "b")]
                     cached_getLibraries)) /\
  settled (run (always VNull) [] [("libraries", VStr "a")]
             cached_getLibraries) <>
  settled (run (always VNull) [] [("libraries", VStr "b")]
             cached_getLibraries).
Proof. split; [reflexivity | discriminate]. Qed.

(** C10: two runs of the same operation on the same arguments that receive
    the same answers from the transport and the network make the same
    requests and write the same diagnostics, in the same order, and settle
    alike: both resolve to the same value or both reject with the same
    reason.  The worlds, the pasts and the instances of the two runs may
    differ: no method reads anything but its arguments and the answers. *)
Theorem invoke_deterministic
  (o : Op) (args : list JsVal)
  (w1 w2 : World) (past1 past2 : list Event) (this1 this2 : Instance) :
  answers (events (run w1 past1 this1 (invoke o args))) =
  answers (events (run w2 past2 this2 (invoke o args))) ->
  events (run w1 past1 this1 (invoke o args)) =
  events (run w2 past2 this2 (invoke o args)) /\
  settled (run w1 past1 this1 (invoke o args)) =
  settled (run w2 past2 this2 (invoke o args)).
Proof. apply run_determined_by_answers, invoke_no_GetThis. Qed.

Lemma invoke_deterministic_witness :
  events (run (always (VStr "graph")) [] knowledgeAPI
            (invoke op_getKnowledgeGraph [VStr "col-1"])) =
  events (run (only "/api/visual/graph/col-1" (VStr "graph"))
            [EvConsoleError [VStr "earlier"]] [("cache", VNull)]
            (invoke op_getKnowledgeGraph [VStr "col-1"])) /\
  settled (run (always (VStr "graph")) [] knowledgeAPI
             (invoke op_getKnowledgeGraph [VStr "col-1"])) =
  settled (run (only "/api/visual/graph/col-1" (VStr "graph"))
             [EvConsoleError [VStr "earlier"]] [("cache", VNull)]
             (invoke op_getKnowledgeGraph [VStr "col-1"])).
Proof.
  apply (invoke_deterministic op_getKnowledgeGraph [VStr "col-1"]
           (always (VStr "graph"))
           (only "/api/visual/graph/col-1" (VStr "graph"))
           [] [EvConsoleError [VStr "earlier"]]
           knowledgeAPI [("cache", VNull)]).
  reflexivity.
Defined.

(* ================================================================= *)
(** ** The shape of every run *)

Ltac all_runs o args w :=
  destruct o; args_cases args; autounfold with methods; cbn;
  rewrite ?FormData_append_form_value; run_cases w.

(** Whatever the arguments and the answers: first the requests, then one
    diagnostic if and only if the call rejects. *)
Lemma invoke_events (o : Op) (args : list JsVal)
  (w : World) (past : list Event) (this : Instance) :
  events (run w past this (invoke o args)) =
  requests (events (run w past this (invoke o args))) ++
  match settled (run w past this (invoke o args)) with
  | Fulfilled _ => []
  | Rejected e => [diagnostic o e]
  end.
Proof. all_runs o args w; reflexivity. Qed.

Lemma invoke_requests_le (o : Op) (args : list JsVal)
  (w : World) (past : list Event) (this : Instance) :
  (length (requests (events (run w past this (invoke o args)))) <= 1)%nat.
Proof. all_runs o args w; repeat constructor. Qed.

Lemma invoke_diagnostics (o : Op) (args : list JsVal)
  (w : World) (past : list Event) (this : Instance) :
  diagnostics (events (run w past this (invoke o args))) =
  match settled (run w past this (invoke o args)) with
  | Fulfilled _ => []
  | Rejected e => [diagnostic o e]
  end.
Proof. all_runs o args w; reflexivity. Qed.

(** X1: for every method, every argument list and every world, the events
    of a call are its requests followed by nothing when the call resolves,
    and by exactly one diagnostic when it rejects; the diagnostic carries
    the label of the method and the very value the call rejects with,
    whether that value came from the transport or was thrown locally. *)
Theorem diagnostic_iff_rejected (o : Op) (args : list JsVal)
  (w : World) (past : list Event) (this : Instance) :
  events (run w past this (invoke o args)) =
  requests (events (run w past this (invoke o args))) ++
  match settled (run w past this (invoke o args)) with
  | Fulfilled _ => []
  | Rejected e => [EvConsoleError [VStr (label o); e]]
  end.
Proof. apply invoke_events. Qed.

(** X2: no call makes more than one request, whatever the arguments and
    whatever the transport or the network answers. *)
Theorem at_most_one_request (o : Op) (args : list JsVal)
  (w : World) (past : list Event) (this : Instance) :
  (length (requests (events (run w past this (invoke o args)))) <= 1)%nat.
Proof. apply invoke_requests_le. Qed.

(** X3: only [uploadFileToOSS] calls [fetch], and it never calls the shared
    transport; every other method calls the shared transport only. *)
Theorem channels_are_separate (o : Op) (args : list JsVal)
  (w : World) (past : list Event) (this : Instance) (ev : Event) :
  In ev (events (run w past this (invoke o args))) ->
  match ev with
  | EvFetch _ _ => o = op_uploadFileToOSS
  | EvHttp _ _ => o <> op_uploadFileToOSS
  | EvConsoleError _ => True
  end.
Proof.
  all_runs o args w; intros Hin; decompose_or Hin; subst; cbn;
    solve [exact I | reflexivity | discriminate].
Qed.

Lemma channels_are_separate_witness :
  op_uploadFileToOSS = op_uploadFileToOSS.
Proof.
  apply (channels_are_separate op_uploadFileToOSS
           [VStr "https://h/a?x=1"; VFile report]
           (answering (mkResponse 200 "OK")) [] knowledgeAPI
           (EvFetch (mkFetch (VStr "https://h/a?x=1") "PUT" (VFile report)
                       [("Content-Type", VStr "application/pdf")])
                    (Fulfilled (mkResponse 200 "OK")))).
  left. reflexivity.
Defined.

(* ================================================================= *)
(** ** Identifiers and payloads *)

(** Closes a goal that says the requests of a run are one given request:
    the request is read off the run, then its answer is analysed. *)
Ltac one_request w :=
  lazymatch goal with
  | |- EvHttp ?r _ :: _ = [EvHttp ?r' _] => unify r r'
  | |- EvFetch ?r _ :: _ = [EvFetch ?r' _] => unify r r'
  end;
  run_cases w; reflexivity.

(** X4: when the identifier of [getLibraryDetail], [updateLibrary],
    [deleteLibrary], [updateDocument], [deleteDocument] or
    [getKnowledgeGraph] has no string form, the call makes no request at
    all: it writes one diagnostic and rejects with the [TypeError] of the
    conversion, whatever the world is. *)
Theorem identifier_without_string_form
  (o : Op) (args : list JsVal)
  (w : World) (past : list Event) (this : Instance) :
  interpolates o = true ->
  ToString (argument args 0) = None ->
  run w past this (invoke o args) =
  mkRun [EvConsoleError [VStr (label o); ToString_error (argument args 0)]]
        this
        (Rejected (ToString_error (argument args 0))).
Proof.
  intros Ho Hid.
  destruct o; try discriminate Ho; args_cases args; cbn in Hid;
    try discriminate Hid; autounfold with methods; cbn; rewrite Hid;
    reflexivity.
Qed.

Lemma identifier_without_string_form_witness :
  run (always VNull) [] knowledgeAPI
      (invoke op_deleteLibrary [VObject [("toString", VNull)]]) =
  mkRun [EvConsoleError [VStr (label op_deleteLibrary);
                         TypeError "Cannot convert object to primitive value"]]
        knowledgeAPI
        (Rejected (TypeError "Cannot convert object to primitive value")).
Proof.
  apply (identifier_without_string_form op_deleteLibrary
           [VObject [("toString", VNull)]] (always VNull) [] knowledgeAPI).
  - reflexivity.
  - reflexivity.
Defined.

(** X5: each of these six methods has a verb and a path prefix of its own,
    and whenever the identifier has a string form the one request of the
    call goes to the prefix followed by that string, character for
    character: nothing is escaped or checked, and a missing identifier goes
    out as the text [undefined]. *)
Theorem identifier_is_appended_verbatim (o : Op) :
  interpolates o = true ->
  exists (vb : Verb) (prefix : string),
    forall (args : list JsVal) (s : string)
           (w : World) (past : list Event) (this : Instance),
      ToString (argument args 0) = Some s ->
      exists a,
        requests (events (run w past this (invoke o args))) =
        [EvHttp (mkHttp vb (prefix ++ s) a)
                (httpClient w past (mkHttp vb (prefix ++ s) a))].
Proof.
  intros Ho.
  exists (match catalogue o with Some r => row_verb r | None => GET end),
         (match catalogue o with Some r => row_path r | None => "" end).
  intros args s w past this Hid.
  destruct o; try discriminate Ho; args_cases args; cbn in Hid;
    try (injection Hid as <-); eexists;
    autounfold with methods; cbn; rewrite ?Hid; cbn;
    one_request w.
Qed.

Lemma identifier_is_appended_verbatim_witness :
  exists (vb : Verb) (prefix : string),
    forall (args : list JsVal) (s : string)
           (w : World) (past : list Event) (this : Instance),
      ToString (argument args 0) = Some s ->
      exists a,
        requests (events (run w past this (invoke op_deleteDocument args))) =
        [EvHttp (mkHttp vb (prefix ++ s) a)
                (httpClient w past (mkHttp vb (prefix ++ s) a))].
Proof.
  apply (identifier_is_appended_verbatim op_deleteDocument).
  reflexivity.
Defined.

(** An identifier that is itself a path is not escaped. *)
Example deleteDocument_path_in_identifier :
  requests (events (run (always VNull) [] knowledgeAPI
                      (invoke op_deleteDocument [VStr "7/../../libraries/1?x=1"]))) =
  [EvHttp (mkHttp DELETE "/api/knowledge/documents/7/../../libraries/1?x=1" None)
          (Fulfilled VNull)].
Proof. reflexivity. Qed.

(** X6: [getLibraries], [createLibrary], [addDocument], [getUploadUrl],
    [crawlSite] and [processOSSDocument] never fail locally: for every
    argument list whatsoever, values without a string form included, and
    whatever the transport answers, the call makes exactly one request, and
    its verb and path are the same for all arguments. *)
Theorem forwarding_methods_always_request (o : Op) :
  forwards_only o = true ->
  exists (vb : Verb) (p : string),
    forall (args : list JsVal) (w : World) (past : list Event) (this : Instance),
      exists a,
        requests (events (run w past this (invoke o args))) =
        [EvHttp (mkHttp vb p a) (httpClient w past (mkHttp vb p a))].
Proof.
  intros Ho.
  exists (match catalogue o with Some r => row_verb r | None => GET end),
         (match catalogue o with Some r => row_path r | None => "" end).
  intros args w past this.
  destruct o; try discriminate Ho; args_cases args; eexists;
    autounfold with methods; cbn; one_request w.
Qed.

Lemma forwarding_methods_always_request_witness :
  exists (vb : Verb) (p : string),
    forall (args : list JsVal) (w : World) (past : list Event) (this : Instance),
      exists a,
        requests (events (run w past this (invoke op_processOSSDocument args))) =
        [EvHttp (mkHttp vb p a) (httpClient w past (mkHttp vb p a))].
Proof.
  apply (forwarding_methods_always_request op_processOSSDocument).
  reflexivity.
Defined.

(** X7: [getUploadUrl] and [processOSSDocument] wrap their arguments in a
    fresh object under fixed keys, in a fixed order, without converting
    them: a number stays a number, a missing argument is [undefined], and
    even a Symbol goes to the transport as it is. *)
Theorem wrapped_arguments_are_untouched
  (ossUrl collectionId documentName libraryId : JsVal)
  (w : World) (past : list Event) (this : Instance) :
  let upload := mkHttp POST "/api/knowledge/upload-url"
                  (Some (VObject [("document_name", documentName)])) in
  let process := mkHttp POST "/api/crawl/process-oss-document"
                   (Some (VObject [("oss_url", ossUrl);
                                   ("collection_id", collectionId);
                                   ("document_name", documentName);
                                   ("library_id", libraryId)])) in
  requests (events (run w past this (getUploadUrl documentName))) =
  [EvHttp upload (httpClient w past upload)] /\
  requests (events (run w past this
                      (processOSSDocument ossUrl collectionId documentName
                         libraryId))) =
  [EvHttp process (httpClient w past process)].
Proof.
  split; unfold getUploadUrl, processOSSDocument; cbn;
    destruct (httpClient w past _); reflexivity.
Qed.

(* ================================================================= *)
(** ** Defaults that are not taken *)

(** X8: a label that is given and is not [undefined] is sent as it is, not
    converted and not replaced: [null] stays [null] and does not become
    ['*']. *)
Theorem getKnowledgeGraph_explicit_label
  (collectionId : string) (lbl : JsVal)
  (w : World) (past : list Event) (this : Instance) :
  lbl <> VUndefined ->
  let req := mkHttp GET ("/api/visual/graph/" ++ collectionId)%string
               (Some (VObject [("label", lbl)])) in
  requests (events (run w past this
                      (invoke op_getKnowledgeGraph [VStr collectionId; lbl]))) =
  [EvHttp req (httpClient w past req)].
Proof.
  intros Hlbl req. subst req.
  autounfold with methods; cbn.
  replace (default_param lbl (VStr "*")) with lbl
    by (destruct lbl; try reflexivity; now destruct Hlbl).
  one_request w.
Qed.

Lemma getKnowledgeGraph_explicit_label_witness :
  requests (events (run (always VNull) [] knowledgeAPI
                      (invoke op_getKnowledgeGraph [VStr "col-1"; VNull]))) =
  [EvHttp (mkHttp GET "/api/visual/graph/col-1"
             (Some (VObject [("label", VNull)])))
          (Fulfilled VNull)].
Proof.
  apply (getKnowledgeGraph_explicit_label "col-1" VNull (always VNull) []
           knowledgeAPI).
  discriminate.
Defined.

(** X9: a strategy that is given, is not [undefined] and is not a [File]
    goes into the form as its string form, whatever it is: [null] becomes
    the text [null], it does not fall back to ["markdown"].  The library
    identifier is any number, in the form as JavaScript prints it. *)
Theorem uploadLocalFile_explicit_strategy
  (file : File.t) (collectionId : string) (libraryId : Number.t)
  (chunkStrategy : JsVal) (s : string)
  (w : World) (past : list Event) (this : Instance) :
  chunkStrategy <> VUndefined ->
  (forall f, chunkStrategy <> VFile f) ->
  ToString chunkStrategy = Some s ->
  let req := mkHttp POST "/api/upload/process"
               (Some (VFormData [("file", FFile file);
                                 ("collection_id", FString collectionId);
                                 ("library_id", FString (Number.toString libraryId));
                                 ("chunk_strategy", FString s)])) in
  requests (events (run w past this
                      (invoke op_uploadLocalFile
                         [VFile file; VStr collectionId; VNum libraryId;
                          chunkStrategy]))) =
  [EvHttp req (httpClient w past req)].
Proof.
  intros Hundef Hfile Hstr req. subst req.
  autounfold with methods; cbn.
  replace (default_param chunkStrategy (VStr "markdown")) with chunkStrategy
    by (destruct chunkStrategy; try reflexivity; now destruct Hundef).
  rewrite FormData_append_form_value.
  replace (form_value chunkStrategy) with (Some (FString s)).
  - cbn. one_request w.
  - destruct chunkStrategy as [| |[|]| | | |props|f| |]; cbn in *;
      try destruct (has_own "toString" props);
      try discriminate Hstr;
      try (injection Hstr as <-; reflexivity).
    all: exfalso; first [now apply Hundef | eapply Hfile; reflexivity].
Qed.

Lemma uploadLocalFile_explicit_strategy_witness :
  requests (events (run (always VNull) [] knowledgeAPI
                      (invoke op_uploadLocalFile
                         [VFile report; VStr "col-1"; VNum (int 42); VNull]))) =
  [EvHttp (mkHttp POST "/api/upload/process"
             (Some (VFormData [("file", FFile report);
                               ("collection_id", FString "col-1");
                               ("library_id", FString "42");
                               ("chunk_strategy", FString "null")])))
          (Fulfilled VNull)].
Proof.
  apply (uploadLocalFile_explicit_strategy report "col-1" (int 42) VNull "null"
           (always VNull) [] knowledgeAPI).
  - discriminate.
  - discriminate.
  - reflexivity.
Defined.

(* ================================================================= *)
(** ** The direct upload, beyond files and strings *)

Lemma ok_inv (r : Response) : ok r = true -> 200 <= status r <= 299.
Proof. unfold ok. intros H. apply andb_prop in H as [H1 H2]. lia. Qed.

(** What a fulfilled upload tells. *)
Lemma uploadFileToOSS_fulfilled_inv
  (uploadUrl file v : JsVal)
  (w : World) (past : list Event) (this : Instance) :
  settled (run w past this (uploadFileToOSS uploadUrl file)) = Fulfilled v ->
  exists (s p : string) (contentType : JsVal) (resp : Response),
    uploadUrl = VStr s /\
    200 <= status resp <= 299 /\
    events (run w past this (uploadFileToOSS uploadUrl file)) =
    [EvFetch (mkFetch uploadUrl "PUT" file [("Content-Type", contentType)])
             (Fulfilled resp)] /\
    v = VObject [("success", VBool true); ("url", VStr p)] /\
    ~ occurs "?" p.
Proof.
  unfold uploadFileToOSS; cbn; rewrite FormData_append_form_value.
  destruct (form_value file); cbn; [|discriminate].
  destruct (get_type_cases file) as [[ct ->]|[e ->]]; cbn; [|discriminate].
  destruct (fetch w past _) as [resp|e]; cbn; [|discriminate].
  destruct (ok resp) eqn:Hok; cbn; [|discriminate].
  destruct uploadUrl as [| | | |s| | | | |]; cbn; try discriminate.
  intros Hv. injection Hv as <-.
  destruct (split_first "?" s) as (p & tl & Hsplit & Hp & _).
  exists s, p, ct, resp. rewrite Hsplit.
  repeat split; try reflexivity; try apply (ok_inv resp Hok). exact Hp.
Qed.

(** X10: [uploadFileToOSS] resolves in one way only.  If the call resolves,
    then [uploadUrl] is a string, the run is exactly one [fetch] that was
    fulfilled with a 2xx response, nothing was written to the console, and
    the value is [{success: true, url: p}] with a [p] free of ['?']: the
    flag is never [false], failure is always a rejection. *)
Theorem uploadFileToOSS_resolves_only_on_2xx
  (uploadUrl file v : JsVal)
  (w : World) (past : list Event) (this : Instance) :
  settled (run w past this (uploadFileToOSS uploadUrl file)) = Fulfilled v ->
  exists (s p : string) (contentType : JsVal) (resp : Response),
    uploadUrl = VStr s /\
    200 <= status resp <= 299 /\
    events (run w past this (uploadFileToOSS uploadUrl file)) =
    [EvFetch (mkFetch uploadUrl "PUT" file [("Content-Type", contentType)])
             (Fulfilled resp)] /\
    v = VObject [("success", VBool true); ("url", VStr p)] /\
    ~ occurs "?" p.
Proof. apply uploadFileToOSS_fulfilled_inv. Qed.

Lemma uploadFileToOSS_resolves_only_on_2xx_witness :
  exists (s p : string) (contentType : JsVal) (resp : Response),
    VStr "https://h/a?x=1" = VStr s /\
    200 <= status resp <= 299 /\
    events (run (answering (mkResponse 201 "Created")) [] knowledgeAPI
              (uploadFileToOSS (VStr "https://h/a?x=1") (VFile report))) =
    [EvFetch (mkFetch (VStr "https://h/a?x=1") "PUT" (VFile report)
                [("Content-Type", contentType)])
             (Fulfilled resp)] /\
    VObject [("success", VBool true); ("url", VStr "https://h/a")] =
    VObject [("success", VBool true); ("url", VStr p)] /\
    ~ occurs "?" p.
Proof.
  apply (uploadFileToOSS_resolves_only_on_2xx (VStr "https://h/a?x=1")
           (VFile report)
           (VObject [("success", VBool true); ("url", VStr "https://h/a")])
           (answering (mkResponse 201 "Created")) [] knowledgeAPI).
  reflexivity.
Defined.

(** X11: when [uploadUrl] is not a string (a [URL] object, say) the file is
    uploaded all the same, and if the network accepts it with a 2xx
    response the call still rejects: with a [TypeError], after the one
    request, with one diagnostic. *)
Theorem uploadFileToOSS_url_not_a_string
  (uploadUrl : JsVal) (file : File.t)
  (w : World) (past : list Event) (this : Instance) (resp : Response) :
  (forall s, uploadUrl <> VStr s) ->
  fetch w past (mkFetch uploadUrl "PUT" (VFile file)
                  [("Content-Type", VStr (File.type file))]) = Fulfilled resp ->
  200 <= status resp <= 299 ->
  exists message,
    run w past this (uploadFileToOSS uploadUrl (VFile file)) =
    mkRun [EvFetch (mkFetch uploadUrl "PUT" (VFile file)
                      [("Content-Type", VStr (File.type file))])
                   (Fulfilled resp);
           EvConsoleError [VStr (label op_uploadFileToOSS); TypeError message]]
          this
          (Rejected (TypeError message)).
Proof.
  intros Hurl Hfetch H2xx.
  unfold uploadFileToOSS; cbn. rewrite Hfetch; cbn.
  rewrite (ok_true resp H2xx); cbn.
  destruct uploadUrl as [| | | |s| | | | |]; cbn;
    try (eexists; reflexivity).
  now destruct (Hurl s).
Qed.

Lemma uploadFileToOSS_url_not_a_string_witness :
  exists message,
    run (answering (mkResponse 200 "OK")) [] knowledgeAPI
        (uploadFileToOSS url_object (VFile report)) =
    mkRun [EvFetch (mkFetch url_object "PUT" (VFile report)
                      [("Content-Type", VStr (File.type report))])
                   (Fulfilled (mkResponse 200 "OK"));
           EvConsoleError [VStr (label op_uploadFileToOSS); TypeError message]]
          knowledgeAPI
          (Rejected (TypeError message)).
Proof.
  apply (uploadFileToOSS_url_not_a_string url_object report
           (answering (mkResponse 200 "OK")) [] knowledgeAPI
           (mkResponse 200 "OK")).
  - discriminate.
  - reflexivity.
  - simpl. lia.
Defined.

(** X12: [uploadFileToOSS] makes a request if and only if the file is
    neither [undefined] nor [null] and has a string form.  Without a file
    nothing goes out, because reading [file.type] throws; and a value
    without a string form is stopped by the form that is built and never
    sent. *)
Theorem uploadFileToOSS_request_iff
  (uploadUrl file : JsVal)
  (w : World) (past : list Event) (this : Instance) :
  requests (events (run w past this (uploadFileToOSS uploadUrl file))) = [] <->
  file = VUndefined \/ file = VNull \/ ToString file = None.
Proof.
  unfold uploadFileToOSS; cbn; rewrite FormData_append_form_value.
  destruct file as [| |[|]| | | |props| | |]; cbn;
    try destruct (has_own "toString" props); cbn;
    run_cases w;
    (split;
     [ intros H; try discriminate H; auto
     | intros H; decompose_or H; try discriminate H; reflexivity ]).
Qed.

(** X13: for every value that is sent, the body of the request is that
    value itself and the Content-Type header is whatever its [type]
    property holds: the MIME type of a [File], the own property of an
    object, [undefined] for a string. *)
Theorem uploadFileToOSS_body_is_the_argument
  (uploadUrl file : JsVal) (req : FetchRequest) (res : Settled Response)
  (w : World) (past : list Event) (this : Instance) :
  In (EvFetch req res) (events (run w past this (uploadFileToOSS uploadUrl file))) ->
  url req = uploadUrl /\
  method req = "PUT"%string /\
  body req = file /\
  headers req =
  [("Content-Type"%string,
    match file with
    | VFile f => VStr (File.type f)
    | VObject props => lookup "type" props
    | _ => VUndefined
    end)].
Proof.
  unfold uploadFileToOSS; cbn; rewrite FormData_append_form_value.
  destruct file as [| |[|]| | | |props| | |]; cbn;
    try destruct (has_own "toString" props); cbn;
    run_cases w;
    intros H; decompose_or H; try discriminate H;
    injection H as <- _; cbn; auto.
Qed.

Lemma uploadFileToOSS_body_is_the_argument_witness :
  url (mkFetch (VStr "https://h/a") "PUT" (VStr "plain text")
         [("Content-Type", VUndefined)]) = VStr "https://h/a" /\
  method (mkFetch (VStr "https://h/a") "PUT" (VStr "plain text")
            [("Content-Type", VUndefined)]) = "PUT"%string /\
  body (mkFetch (VStr "https://h/a") "PUT" (VStr "plain text")
          [("Content-Type", VUndefined)]) = VStr "plain text" /\
  headers (mkFetch (VStr "https://h/a") "PUT" (VStr "plain text")
             [("Content-Type", VUndefined)]) =
  [("Content-Type"%string, VUndefined)].
Proof.
  apply (uploadFileToOSS_body_is_the_argument (VStr "https://h/a")
           (VStr "plain text")
           (mkFetch (VStr "https://h/a") "PUT" (VStr "plain text")
              [("Content-Type", VUndefined)])
           (Fulfilled (mkResponse 200 "OK"))
           (answering (mkResponse 200 "OK")) [] knowledgeAPI).
  left. reflexivity.
Defined.

(** X14: the URL a successful upload returns is stable: used as the
    [uploadUrl] of another upload that the network accepts, it comes back
    unchanged. *)
Theorem stripped_url_is_stable
  (uploadUrl file : JsVal) (p : string) (file' : File.t)
  (w w' : World) (past past' : list Event) (this this' : Instance)
  (resp' : Response) :
  settled (run w past this (uploadFileToOSS uploadUrl file)) =
  Fulfilled (VObject [("success", VBool true); ("url", VStr p)]) ->
  fetch w' past' (mkFetch (VStr p) "PUT" (VFile file')
                    [("Content-Type", VStr (File.type file'))]) = Fulfilled resp' ->
  200 <= status resp' <= 299 ->
  settled (run w' past' this' (uploadFileToOSS (VStr p) (VFile file'))) =
  Fulfilled (VObject [("success", VBool true); ("url", VStr p)]).
Proof.
  intros Hfirst Hfetch H2xx.
  destruct (uploadFileToOSS_fulfilled_inv _ _ _ _ _ _ Hfirst)
    as (s & q & ct & resp & _ & _ & _ & Hv & Hq).
  injection Hv as <-.
  destruct (uploadFileToOSS_run (VStr p) file' w' past' this')
    as (tail & -> & _ & _ & Hok).
  cbn [observe settled].
  rewrite (Hok resp' p Hfetch (ok_true resp' H2xx) eq_refl).
  now rewrite (split_without "?" p Hq).
Qed.

Lemma stripped_url_is_stable_witness :
  settled (run (answering (mkResponse 204 "No Content")) [] knowledgeAPI
             (uploadFileToOSS (VStr "https://h/a") (VFile report))) =
  Fulfilled (VObject [("success", VBool true); ("url", VStr "https://h/a")]).
Proof.
  apply (stripped_url_is_stable (VStr "https://h/a?x=1?y=2") (VFile report)
           "https://h/a" report
           (answering (mkResponse 200 "OK"))
           (answering (mkResponse 204 "No Content"))
           [] [] knowledgeAPI knowledgeAPI (mkResponse 204 "No Content")).
  - reflexivity.
  - reflexivity.
  - simpl. lia.
Defined.

(* ================================================================= *)
(** ** The multipart form *)

Lemma form_value_None_iff (v : JsVal) :
  form_value v = None <-> ToString v = None.
Proof.
  destruct v as [| |[|]| | | |props| | |]; cbn;
    try destruct (has_own "toString" props); cbn;
    split; intros H; try discriminate H; reflexivity.
Qed.

Lemma default_param_string_form (v : JsVal) (d : string) :
  ToString (default_param v (VStr d)) = None <-> ToString v = None.
Proof.
  destruct v; unfold default_param; try reflexivity.
  cbn. split; discriminate.
Qed.

(** X15: [uploadLocalFile] makes no request if and only if one of the file,
    the collection identifier, the library identifier and the strategy has
    no string form: the form is filled before anything is sent, and one
    value that cannot be appended keeps the whole upload back. *)
Theorem uploadLocalFile_request_iff
  (file collectionId libraryId chunkStrategy : JsVal)
  (w : World) (past : list Event) (this : Instance) :
  requests (events (run w past this
                      (uploadLocalFile file collectionId libraryId
                         chunkStrategy))) = [] <->
  ToString file = None \/ ToString collectionId = None \/
  ToString libraryId = None \/ ToString chunkStrategy = None.
Proof.
  rewrite <- (default_param_string_form chunkStrategy "markdown").
  rewrite <- !form_value_None_iff.
  unfold uploadLocalFile; cbn; rewrite FormData_append_form_value.
  run_cases w;
    (split;
     [ intros H; try discriminate H; auto
     | intros H; decompose_or H; try discriminate H; reflexivity ]).
Qed.

(** X16: whenever [uploadLocalFile] sends a request, it is a POST to
    ['/api/upload/process'] whose body is a form with exactly the fields
    [file], [collection_id], [library_id], [chunk_strategy], in this order,
    each once; and a [File] given as the first argument is in the form as
    that file, not as a string. *)
Theorem uploadLocalFile_form_fields
  (args : list JsVal) (req : HttpRequest) (res : Settled JsVal)
  (w : World) (past : list Event) (this : Instance) :
  In (EvHttp req res)
     (events (run w past this (invoke op_uploadLocalFile args))) ->
  verb req = POST /\
  path req = "/api/upload/process"%string /\
  exists es,
    arg req = Some (VFormData es) /\
    map fst es = ["file"; "collection_id"; "library_id"; "chunk_strategy"]%string /\
    (forall f, argument args 0 = VFile f ->
               nth_error es 0 = Some ("file"%string, FFile f)).
Proof.
  args_cases args; autounfold with methods; cbn;
    rewrite FormData_append_form_value.
  all: match goal with
       | |- context [form_value ?x] => destruct (form_value x) eqn:Efile
       end; cbn; rewrite ?FormData_append_form_value.
  all: run_cases w.
  all: intros H; decompose_or H; try discriminate H; injection H as <- _.
  all: repeat split; eexists; repeat split.
  all: intros file Hf; try discriminate Hf; cbn in Hf; subst.
  all: cbn in Efile; now injection Efile as <-.
Qed.

Lemma uploadLocalFile_form_fields_witness :
  verb (mkHttp POST "/api/upload/process"
          (Some (VFormData [("file", FFile report);
                            ("collection_id", FString "col-1");
                            ("library_id", FString "42");
                            ("chunk_strategy", FString "semantic")]))) = POST /\
  path (mkHttp POST "/api/upload/process"
          (Some (VFormData [("file", FFile report);
                            ("collection_id", FString "col-1");
                            ("library_id", FString "42");
                            ("chunk_strategy", FString "semantic")]))) =
  "/api/upload/process"%string /\
  exists es,
    arg (mkHttp POST "/api/upload/process"
           (Some (VFormData [("file", FFile report);
                             ("collection_id", FString "col-1");
                             ("library_id", FString "42");
                             ("chunk_strategy", FString "semantic")]))) =
    Some (VFormData es) /\
    map fst es = ["file"; "collection_id"; "library_id"; "chunk_strategy"]%string /\
    (forall f, argument [VFile report; VStr "col-1"; VNum (int 42); VStr "semantic"]
                 0 = VFile f ->
               nth_error es 0 = Some ("file"%string, FFile f)).
Proof.
  apply (uploadLocalFile_form_fields
           [VFile report; VStr "col-1"; VNum (int 42); VStr "semantic"]
           (mkHttp POST "/api/upload/process"
              (Some (VFormData [("file", FFile report);
                                ("collection_id", FString "col-1");
                                ("library_id", FString "42");
                                ("chunk_strategy", FString "semantic")])))
           (Fulfilled VNull) (always VNull) [] knowledgeAPI).
  left. reflexivity.
Defined.

(* ================================================================= *)
(** ** Endpoints *)

(** Where a request of a method can go. *)
Lemma invoke_endpoint (o : Op) (args : list JsVal)
  (req : HttpRequest) (res : Settled JsVal)
  (w : World) (past : list Event) (this : Instance) :
  In (EvHttp req res) (events (run w past this (invoke o args))) ->
  exists row s,
    catalogue o = Some row /\
    verb req = row_verb row /\
    path req = (row_path row ++ s)%string /\
    (row_id row = false -> s = ""%string).
Proof.
  all_runs o args w; intros H; decompose_or H; try discriminate H;
    injection H as <- _; eexists; eexists;
    (split; [reflexivity|]); cbn;
    (split; [reflexivity|]);
    (split; [reflexivity|]); first [reflexivity | discriminate].
Qed.

(** X17: no two methods hand the transport the same verb with the same
    path string.  If a request of one call and a request of another carry
    the same verb and the same path, character for character as the client
    built them, both calls are calls of the same method, whatever their
    arguments were.  The comparison is of the strings given to the
    transport; what a URL parser or a server makes of them afterwards (dot
    segments inside an identifier, for one) is not part of it. *)
Theorem endpoints_are_disjoint
  (o1 o2 : Op) (args1 args2 : list JsVal)
  (req1 req2 : HttpRequest) (res1 res2 : Settled JsVal)
  (w1 w2 : World) (past1 past2 : list Event) (this1 this2 : Instance) :
  In (EvHttp req1 res1) (events (run w1 past1 this1 (invoke o1 args1))) ->
  In (EvHttp req2 res2) (events (run w2 past2 this2 (invoke o2 args2))) ->
  verb req1 = verb req2 ->
  path req1 = path req2 ->
  o1 = o2.
Proof.
  intros H1 H2 Hverb Hpath.
  apply invoke_endpoint in H1 as (row1 & s1 & Hrow1 & Hv1 & Hp1 & Hs1).
  apply invoke_endpoint in H2 as (row2 & s2 & Hrow2 & Hv2 & Hp2 & Hs2).
  rewrite Hv1, Hv2 in Hverb. rewrite Hp1, Hp2 in Hpath. clear Hv1 Hv2 Hp1 Hp2.
  destruct o1; try discriminate Hrow1; injection Hrow1 as <-;
    destruct o2; try discriminate Hrow2; injection Hrow2 as <-;
    cbn in *; try reflexivity; try discriminate Hverb;
    try rewrite (Hs1 eq_refl) in Hpath;
    try rewrite (Hs2 eq_refl) in Hpath;
    discriminate Hpath.
Qed.

Lemma endpoints_are_disjoint_witness : op_updateLibrary = op_updateLibrary.
Proof.
  apply (endpoints_are_disjoint op_updateLibrary op_updateLibrary
           [VNum (int 7); VStr "a"] [VStr "7"]
           (mkHttp PUT "/api/knowledge/libraries/7" (Some (VStr "a")))
           (mkHttp PUT "/api/knowledge/libraries/7" (Some VUndefined))
           (Fulfilled VNull) (Rejected VNull)
           (always VNull) (never VNull) [] [] knowledgeAPI knowledgeAPI).
  - left. reflexivity.
  - left. reflexivity.
  - reflexivity.
  - reflexivity.
Defined.

(* ================================================================= *)
(** ** Sequences of calls *)

Lemma requests_app (xs ys : list Event) :
  requests (xs ++ ys) = requests xs ++ requests ys.
Proof. apply filter_app. Qed.

Lemma diagnostics_app (xs ys : list Event) :
  diagnostics (xs ++ ys) = diagnostics xs ++ diagnostics ys.
Proof. apply filter_app. Qed.

(** X18: over any sequence of calls on the instance, in any world, the
    console gets exactly one line for each call that rejects and none for
    the others, and the number of requests is at most the number of
    calls. *)
Theorem one_diagnostic_per_rejected_call
  (w : World) (calls : list (Op * list JsVal))
  (past : list Event) (this : Instance) :
  length (diagnostics (all_events (run_calls w past this calls))) =
  length (filter (fun r => is_rejected (settled r))
            (run_calls w past this calls)) /\
  (length (requests (all_events (run_calls w past this calls)))
   <= length calls)%nat.
Proof.
  revert past this.
  induction calls as [|[o args] calls IH]; intros past this; cbn.
  - split; [reflexivity | constructor].
  - unfold all_events in *. cbn.
    rewrite diagnostics_app, requests_app, !length_app.
    destruct (IH (past ++ events (run w past this (invoke o args)))
                 (this_after (run w past this (invoke o args)))) as [IHd IHr].
    rewrite IHd, invoke_diagnostics.
    pose proof (invoke_requests_le o args w past this) as Hle.
    destruct (settled (run w past this (invoke o args))); cbn; split; lia.
Qed.

(* ================================================================= *)
(** ** Payloads *)

(** X19: whatever the transport answers, the payload of a request is the
    caller's own value, not a copy or a conversion of it: the first argument
    for [createLibrary], [addDocument] and [crawlSite], the second for
    [updateLibrary] and [updateDocument]; and the requests of
    [getLibraries], [getLibraryDetail], [deleteLibrary] and
    [deleteDocument] carry nothing besides the path. *)
Theorem payload_is_forwarded
  (o : Op) (args : list JsVal) (req : HttpRequest) (res : Settled JsVal)
  (w : World) (past : list Event) (this : Instance) :
  In (EvHttp req res) (events (run w past this (invoke o args))) ->
  match o with
  | op_createLibrary | op_addDocument | op_crawlSite =>
      arg req = Some (argument args 0)
  | op_updateLibrary | op_updateDocument =>
      arg req = Some (argument args 1)
  | op_getLibraries | op_getLibraryDetail | op_deleteLibrary
  | op_deleteDocument =>
      arg req = None
  | _ => True
  end.
Proof.
  all_runs o args w; intros H; decompose_or H; try discriminate H;
    try exact I; injection H as <- _; reflexivity.
Qed.

Lemma payload_is_forwarded_witness :
  arg (mkHttp PUT "/api/knowledge/documents/3"
         (Some (VObject [("title", VNum (int 1))]))) =
  Some (argument [VNum (int 3); VObject [("title", VNum (int 1))]] 1).
Proof.
  apply (payload_is_forwarded op_updateDocument
           [VNum (int 3); VObject [("title", VNum (int 1))]]
           (mkHttp PUT "/api/knowledge/documents/3"
              (Some (VObject [("title", VNum (int 1))])))
           (Rejected (Error "Conflict"))
           (never (Error "Conflict")) [] knowledgeAPI).
  left. reflexivity.
Defined.
